(** * breaking-point: streak statistics and workout-day validation

    A shallow embedding of
      - [src/lib/streakUtils.ts] (the same two functions are repeated in
        [src/supabase/functions/update-stats/index.ts]),
      - the [Deno.serve] handler of [update-stats/index.ts],
      - [validateDayToggle] of [src/app/(tabs)/schedule.tsx],
      - [toggleDay] of [src/app/onboarding.tsx],
    followed by the properties of these functions.

    Conventions of the embedding.
      - A JavaScript array is a [list]; [number]s that count things or
        index arrays are [Z].
      - The [date] column of [workout_history] has SQL type [date]; its
        value reaches the code as a string [YYYY-MM-DD].  The embedding
        keeps the calendar day such a string names, as a day number in [Z].
        Strings that name no day are outside the model.
      - A JavaScript [Date] is an [Instant]: a local calendar day and the
        milliseconds elapsed since local midnight. *)

From Stdlib Require Import ZArith List Lia Bool String Permutation Sorted.
Import ListNotations.
Open Scope Z_scope.

(** ** Array methods of the JavaScript runtime *)

Module JsArray.

Section Generic.
Context {A : Type}.

(** [Array.prototype.sort(compareFn)]: the sort is stable and puts [a]
    before [b] when [compareFn(a, b) <= 0].  A stable sort has one possible
    output, which insertion from the right computes. *)
Fixpoint insertBy (compareFn : A -> A -> Z) (x : A) (l : list A) : list A :=
  match l with
  | [] => [x]
  | y :: l' =>
      if compareFn x y <=? 0 then x :: y :: l'
      else y :: insertBy compareFn x l'
  end.

Definition sort (compareFn : A -> A -> Z) (l : list A) : list A :=
  fold_right (insertBy compareFn) [] l.

(** [Array.prototype.some(callback)], the callback receiving the element
    and its index. *)
Fixpoint someFrom (callback : A -> nat -> bool) (i : nat) (l : list A) : bool :=
  match l with
  | [] => false
  | x :: l' => callback x i || someFrom callback (S i) l'
  end.

Definition some (callback : A -> nat -> bool) (l : list A) : bool :=
  someFrom callback 0%nat l.

(** [Array.prototype.findIndex(predicate)]: the first index whose element
    satisfies the predicate, [-1] when there is none. *)
Fixpoint findIndexFrom (predicate : A -> bool) (i : Z) (l : list A) : Z :=
  match l with
  | [] => -1
  | x :: l' => if predicate x then i else findIndexFrom predicate (i + 1) l'
  end.

Definition findIndex (predicate : A -> bool) (l : list A) : Z :=
  findIndexFrom predicate 0 l.
End Generic.

(** [Array.prototype.includes] on an array of strings. *)
Definition includes (l : list string) (x : string) : bool :=
  existsb (String.eqb x) l.

(** [Array.from(new Set(l))]: a [Set] keeps the first occurrence of each
    value, in insertion order. *)
Fixpoint fromSet (l : list Z) : list Z :=
  match l with
  | [] => []
  | x :: l' => x :: filter (fun y => negb (y =? x)) (fromSet l')
  end.

(** [Array.prototype.sort()] without comparator orders the elements as
    strings.  It is used on [YYYY-MM-DD] strings only, which this order puts
    in chronological order; on the day numbers that stand for them it is the
    ascending sort. *)
Definition sortDefault (l : list Z) : list Z :=
  sort (fun a b => a - b) l.

(** The order a comparator stands for: [x] may come before [y]. *)
Definition before (compareFn : Z -> Z -> Z) (x y : Z) : Prop :=
  compareFn x y <= 0.

End JsArray.

(** ** The functions of date-fns the code calls *)

Module DateFns.

Record Instant : Type := mkInstant { day : Z; msOfDay : Z }.

(** [parseISO] of a date-only string: local midnight of the day it names. *)
Definition parseISO (d : Z) : Instant := mkInstant d 0.

Definition startOfDay (t : Instant) : Instant := mkInstant (day t) 0.

Definition endOfDay (t : Instant) : Instant := mkInstant (day t) 86399999.

Definition subDays (t : Instant) (amount : Z) : Instant :=
  mkInstant (day t - amount) (msOfDay t).

(** Order of two instants on the time line: [-1], [0] or [1]. *)
Definition compareLocalAsc (a b : Instant) : Z :=
  if day a <? day b then -1
  else if day b <? day a then 1
  else if msOfDay a <? msOfDay b then -1
  else if msOfDay b <? msOfDay a then 1
  else 0.

Definition leInstant (a b : Instant) : bool := compareLocalAsc a b <=? 0.

(** [isWithinInterval(date, { start, end })]. *)
Definition isWithinInterval (date start_ end_ : Instant) : bool :=
  leInstant start_ date && leInstant date end_.

Definition differenceInCalendarDays (a b : Instant) : Z := day a - day b.

(** [differenceInDays(a, b)]: the number of full days between the two
    instants, the calendar difference less one when the last day is not
    complete. *)
Definition differenceInDays (a b : Instant) : Z :=
  let sign := compareLocalAsc a b in
  let difference := Z.abs (differenceInCalendarDays a b) in
  let a' := mkInstant (day a - sign * difference) (msOfDay a) in
  let isLastDayNotFull := if compareLocalAsc a' b =? - sign then 1 else 0 in
  sign * (difference - isLastDayNotFull).

(** [new Date(s).getTime()] for a date-only string: it is read as midnight
    UTC, so the time stamp is the day number in milliseconds. *)
Definition getTime (d : Z) : Z := 86400000 * d.

Section UtcOffset.
(** [toISOString()] prints an instant in UTC.  The local midnight of a day
    falls on the same UTC day when the zone of the runtime is at or behind
    UTC on that date, and on the day before when it is ahead: [utcDayShift d]
    is [0] or [-1] accordingly, for the local day [d].  It depends on the
    date where the offset of the zone changes sides over the year. *)
Variable utcDayShift : Z -> Z.

(** [t.toISOString().split('T')[0]] for an instant at local midnight. *)
Definition isoDayString (t : Instant) : Z := day t + utcDayShift (day t).
End UtcOffset.

End DateFns.

(** ** JSON values *)

#[local] Set Warnings "-register-all".

Inductive Json : Type :=
| JNull
| JBool (b : bool)
| JNum (n : Z)
| JStr (s : string)
| JArr (items : list Json)
| JObj (fields : list (string * Json)).

(** ** [src/lib/streakUtils.ts] *)

Module StreakUtils.
Import JsArray DateFns.

(** [Tables['workout_history']['Row']]. *)
Record WorkoutRow : Type := mkRow {
  row_id : string;
  user_id : string;
  date : Z;
  exercises : Json;
  created_at : string
}.

Definition WorkoutHistory : Type := list WorkoutRow.

(** The [for] loop of [calculateStreak], entered at index [i] with the
    entries from that index on; [break] and the end of the array both leave
    the loop with the current [streak]. *)
Fixpoint streakLoop (today : Instant) (i : nat) (entries : WorkoutHistory)
    (streak : Z) (currentDate : Instant) : Z :=
  match entries with
  | [] => streak
  | entry :: entries' =>
      let workoutDate := startOfDay (parseISO (date entry)) in
      if Nat.eqb i 0
         && isWithinInterval workoutDate (startOfDay today) (endOfDay today)
      then streakLoop today (S i) entries' 1 (subDays today 1)
      else if isWithinInterval workoutDate
                (startOfDay currentDate) (endOfDay currentDate)
      then streakLoop today (S i) entries' (streak + 1) (subDays currentDate 1)
      else streak
  end.

(** [calculateStreak]; [now] is the value of [new Date()]. *)
Definition calculateStreak (now : Instant) (workoutHistory : WorkoutHistory) : Z :=
  if Nat.eqb (List.length workoutHistory) 0 then 0
  else
    let sortedHistory :=
      sort (fun a b => getTime (date b) - getTime (date a)) workoutHistory in
    let today := startOfDay now in
    match sortedHistory with
    | [] => 0
    | first :: _ =>
        let lastWorkoutDate := parseISO (date first) in
        if differenceInDays today lastWorkoutDate >? 1 then 0
        else streakLoop today 0 sortedHistory 0 today
    end.

(** The [for] loop of [calculateLongestStreak]: [previous] is
    [sortedDays[i - 1]] and the list holds [sortedDays] from index [i] on. *)
Fixpoint longestLoop (previous : Z) (sortedDays : list Z)
    (currentStreak longestStreak : Z) : Z :=
  match sortedDays with
  | [] => longestStreak
  | current :: sortedDays' =>
      let currentDay := parseISO current in
      let previousDay := parseISO previous in
      let currentStreak' :=
        if differenceInDays currentDay previousDay =? 1
        then currentStreak + 1 else 1 in
      let longestStreak' :=
        if currentStreak' >? longestStreak
        then currentStreak' else longestStreak in
      longestLoop current sortedDays' currentStreak' longestStreak'
  end.

Section UtcOffset.
Variable utcDayShift : Z -> Z.

Definition calculateLongestStreak (workoutHistory : WorkoutHistory) : Z :=
  if Nat.eqb (List.length workoutHistory) 0 then 0
  else
    let workoutDays :=
      fromSet
        (map (fun workout =>
                isoDayString utcDayShift (startOfDay (parseISO (date workout))))
           workoutHistory) in
    let sortedDays := sortDefault workoutDays in
    match sortedDays with
    | [] => 1
    | first :: rest => longestLoop first rest 1 1
    end.
End UtcOffset.

End StreakUtils.

(** ** [src/supabase/functions/update-stats/index.ts] *)

Module UpdateStats.
Import StreakUtils.

(** What a [catch] clause receives, as far as the handler reads it: its
    properties [message] and [code], each of which may be missing ([None] is
    [undefined]).  An [Error] of the runtime has a string as [message]. *)
Record JsError : Type := mkError {
  message : option Json;
  code : option Json
}.

(** A computation that returns or throws. *)
Definition Throws (A : Type) : Type := (JsError + A)%type.

Definition ret {A : Type} (a : A) : Throws A := inr a.

Definition throw {A : Type} (e : JsError) : Throws A := inl e.

Definition bind {A B : Type} (c : Throws A) (k : A -> Throws B) : Throws B :=
  match c with
  | inl e => inl e
  | inr a => k a
  end.

Notation "x <- c ;; k" := (bind c (fun x => k))
  (at level 61, c at next level, right associativity).

(** The answer [{ data, error }] of a query of the database client. *)
Record Reply (A : Type) : Type := mkReply {
  data : option A;
  error : option JsError
}.
Arguments mkReply {A} _ _.
Arguments data {A} _.
Arguments error {A} _.

(** The database behind the client, as the answers it gives:
    [workout_history] read for a user, [user_stats] looked up for a user,
    and the two ways of writing a row of statistics. *)
Record Backend : Type := mkBackend {
  selectHistory : option Json -> Reply WorkoutHistory;
  selectStats : option Json -> Reply Json;
  updateStats : Json -> option Json -> Reply unit;
  insertStats : Json -> Reply unit
}.

(** The request: its method and what [req.json()] resolves to or rejects
    with. *)
Record Request : Type := mkRequest {
  method : string;
  json : Throws Json
}.

(** What the handler reads from its surroundings besides the request:
    [new Date()], its [toISOString()], the UTC offset of the runtime on each
    date, the environment variables ([Deno.env.get]), and what
    [createClient] of the client library does with a URL and a key: it
    builds the client or throws, as it does on an empty string.  The queries
    of the client built are answered by a [Backend]. *)
Record Runtime : Type := mkRuntime {
  now : DateFns.Instant;
  nowISOString : string;
  utcDayShift : Z -> Z;
  env : string -> option string;
  createClient : string -> string -> Throws unit
}.

(** [value ?? ""]. *)
Definition orEmpty (value : option string) : string :=
  match value with
  | Some text => text
  | None => ""%string
  end.

(** [value !== text] for a string [text]. *)
Definition differsFrom (value : option Json) (text : string) : bool :=
  match value with
  | Some (JStr s) => negb (String.eqb s text)
  | _ => true
  end.

Record Response : Type := mkResponse {
  body : option Json;
  status : Z;
  headers : list (string * string)
}.

Definition corsHeaders : list (string * string) :=
  [ ("Access-Control-Allow-Origin", "*");
    ("Access-Control-Allow-Methods", "GET, POST, OPTIONS");
    ("Access-Control-Allow-Headers", "Content-Type, Authorization") ]%string.

Definition jsonHeaders : list (string * string) :=
  ("Content-Type", "application/json")%string :: corsHeaders.

(** Property [key] of an object; [None] is [undefined]. *)
Fixpoint getField (key : string) (fields : list (string * Json)) : option Json :=
  match fields with
  | [] => None
  | (k, v) :: fields' => if String.eqb k key then Some v else getField key fields'
  end.

(** [const { user_id } = v]: a [TypeError] on [null] (the text of its
    message is the engine's), the property of an object, [undefined] on
    every other value. *)
Definition destructureUserId (v : Json) : Throws (option Json) :=
  match v with
  | JNull =>
      throw (mkError
               (Some (JStr "Cannot destructure property 'user_id' of null"))
               None)
  | JObj fields => ret (getField "user_id" fields)
  | _ => ret None
  end.

(** Truthiness of a value that is a JSON value or [undefined]. *)
Definition truthy (v : option Json) : bool :=
  match v with
  | None => false
  | Some JNull => false
  | Some (JBool b) => b
  | Some (JNum n) => negb (n =? 0)
  | Some (JStr s) => negb (String.eqb s "")
  | Some (JArr _) => true
  | Some (JObj _) => true
  end.

(** [Math.round] of the quotient [p / q] for [q > 0]: the nearest integer,
    halves going up.  The quotient is taken exactly; the rounding of the
    double-precision division is not modelled. *)
Definition roundQuotient (p q : Z) : Z := (2 * p + q) / (2 * q).

Definition calculateAverageWorkoutDuration (workoutHistory : WorkoutHistory) : Z :=
  if Nat.eqb (List.length workoutHistory) 0 then 0
  else
    let totalWorkouts := Z.of_nat (List.length workoutHistory) in
    let exerciseCounts :=
      map (fun workout =>
             match exercises workout with
             | JArr items => Z.of_nat (List.length items)
             | _ => 0
             end) workoutHistory in
    let totalExercises := fold_left (fun sum count => sum + count) exerciseCounts 0 in
    roundQuotient (totalExercises * 5) totalWorkouts.

Definition statsFields (totalWorkouts currentStreak longestStreak
    averageWorkoutDuration : Z) : list (string * Json) :=
  [ ("total_workouts", JNum totalWorkouts);
    ("current_streak", JNum currentStreak);
    ("longest_streak", JNum longestStreak);
    ("average_workout_duration", JNum averageWorkoutDuration) ]%string.

Definition undefinedToNull (v : option Json) : Json :=
  match v with
  | Some j => j
  | None => JNull
  end.

(** The [try] block of the handler. *)
Definition tryBlock (rt : Runtime) (db : Backend) (req : Request) : Throws Response :=
  supabaseClient <-
    createClient rt (orEmpty (env rt "SUPABASE_URL"))
      (orEmpty (env rt "SUPABASE_ANON_KEY")) ;;
  parsed <- json req ;;
  user_id <- destructureUserId parsed ;;
  if negb (truthy user_id) then
    ret (mkResponse
           (Some (JObj [("error", JStr "User ID is required")]%string))
           400 jsonHeaders)
  else
    let history := selectHistory db user_id in
    match error history with
    | Some historyError => throw historyError
    | None =>
        let workoutHistory :=
          match data history with
          | Some rows => rows
          | None => []
          end in
        let totalWorkouts := Z.of_nat (List.length workoutHistory) in
        let currentStreak := calculateStreak (now rt) workoutHistory in
        let longestStreak :=
          calculateLongestStreak (utcDayShift rt) workoutHistory in
        let averageWorkoutDuration :=
          calculateAverageWorkoutDuration workoutHistory in
        let stats := selectStats db user_id in
        let rethrown :=
          match error stats with
          | Some statsError =>
              if differsFrom (code statsError) "PGRST116"
              then Some statsError else None
          | None => None
          end in
        match rethrown with
        | Some statsError => throw statsError
        | None =>
            let fields :=
              statsFields totalWorkouts currentStreak longestStreak
                averageWorkoutDuration in
            let result :=
              match data stats with
              | Some _ =>
                  updateStats db
                    (JObj (fields ++
                             [("updated_at", JStr (nowISOString rt))]%string))
                    user_id
              | None =>
                  insertStats db
                    (JObj (("user_id", undefinedToNull user_id)%string :: fields))
              end in
            match error result with
            | Some e => throw e
            | None =>
                ret (mkResponse
                       (Some (JObj [ ("success", JBool true);
                                     ("stats", JObj fields) ]%string))
                       200 jsonHeaders)
            end
        end
    end.

(** What [JSON.stringify({ error: value })] serialises: a property whose
    value is [undefined] is left out. *)
Definition stringifyError (value : option Json) : Json :=
  match value with
  | Some v => JObj [("error", v)]%string
  | None => JObj []
  end.

(** The function given to [Deno.serve]. *)
Definition serve (rt : Runtime) (db : Backend) (req : Request) : Response :=
  if String.eqb (method req) "OPTIONS" then mkResponse None 200 corsHeaders
  else
    match tryBlock rt db req with
    | inr response => response
    | inl e =>
        mkResponse (Some (stringifyError (message e))) 500 jsonHeaders
    end.

(** The names of the fields of a response body, in order; none when the
    body is no object. *)
Definition topLevelFields (r : Response) : list string :=
  match body r with
  | Some (JObj fields) => map fst fields
  | _ => []
  end.

End UpdateStats.

(** ** [validateDayToggle] of [src/app/(tabs)/schedule.tsx] *)

Module Schedule.
Import JsArray.

Record Day : Type := mkDay { id : string; label : string }.

Definition days : list Day :=
  [ mkDay "monday" "Mon";
    mkDay "tuesday" "Tue";
    mkDay "wednesday" "Wed";
    mkDay "thursday" "Thu";
    mkDay "friday" "Fri";
    mkDay "saturday" "Sat";
    mkDay "sunday" "Sun" ]%string.

Record Validation : Type := mkValidation {
  isValid : bool;
  message : option string
}.

(** The callback given to [some]: [dayIndices] is the array the method is
    called on. *)
Definition consecutiveAt (dayIndices : list Z) (dayIndex : Z) (i : nat) : bool :=
  if Nat.eqb i 0 then false
  else Z.abs (dayIndex - nth (i - 1) dayIndices 0) =? 1.

(** [validateDayToggle]; [selectedDays] is the state the callback closes
    over.  Nothing in the [try] block can throw, so the [catch] clause is
    left out. *)
Definition validateDayToggle (selectedDays : list string) (dayId : string)
    (isAdding : bool) : Validation :=
  if negb isAdding then mkValidation true None
  else
    let newSelection := selectedDays ++ [dayId] in
    if (4 <? List.length newSelection)%nat then
      mkValidation false (Some "Maximum of 4 workout days allowed"%string)
    else
      let dayIndices :=
        map (fun d => findIndex (fun day => String.eqb (id day) d) days)
          newSelection in
      let dayIndices := sort (fun a b => a - b) dayIndices in
      let hasConsecutiveDays := some (consecutiveAt dayIndices) dayIndices in
      if hasConsecutiveDays then
        mkValidation false (Some "Rest day required between workouts"%string)
      else mkValidation true None.

End Schedule.

(** ** [toggleDay] of [src/app/onboarding.tsx] *)

Module Onboarding.
Import JsArray.

Record Day : Type := mkDay { id : string; label : string }.

Definition days : list Day :=
  [ mkDay "sunday" "Sunday";
    mkDay "monday" "Monday";
    mkDay "tuesday" "Tuesday";
    mkDay "wednesday" "Wednesday";
    mkDay "thursday" "Thursday";
    mkDay "friday" "Friday";
    mkDay "saturday" "Saturday" ]%string.

(** The initial state of [selectedDays]. *)
Definition initialSelectedDays : list string :=
  [ "monday"; "wednesday"; "friday" ]%string.

Definition consecutiveAt (dayIndices : list Z) (dayIndex : Z) (i : nat) : bool :=
  if Nat.eqb i 0 then false
  else
    let prevDayIndex := nth (i - 1) dayIndices 0 in
    Z.abs (dayIndex - prevDayIndex) =? 1.

(** The updater [toggleDay] passes to [setSelectedDays]: from the current
    selection to the next one. *)
Definition toggleDay (dayId : string) (current : list string) : list string :=
  let newSelection :=
    if includes current dayId
    then filter (fun d => negb (String.eqb d dayId)) current
    else current ++ [dayId] in
  let dayIndices :=
    map (fun d => findIndex (fun day => String.eqb (id day) d) days)
      newSelection in
  let hasConsecutiveDays := some (consecutiveAt dayIndices) dayIndices in
  if hasConsecutiveDays then current else newSelection.

(** The selections the screen can show: the initial one and what a
    sequence of taps makes of it. *)
Inductive reachable : list string -> Prop :=
| reachable_initial : reachable initialSelectedDays
| reachable_toggle :
    forall dayId current,
      In dayId (map id days) ->
      reachable current -> reachable (toggleDay dayId current).

End Onboarding.

(** ** Vocabulary of the properties *)

Module StreakSpec.
Import StreakUtils.

(** The history has a completion on calendar day [d]. *)
Definition hasDay (h : WorkoutHistory) (d : Z) : Prop := In d (map date h).

(** The [k] consecutive calendar days from [d] on all have a completion. *)
Definition isRun (h : WorkoutHistory) (d k : Z) : Prop :=
  forall j, 0 <= j < k -> hasDay h (d + j).

(** [m] is the day of the most recent completion. *)
Definition mostRecent (h : WorkoutHistory) (m : Z) : Prop :=
  hasDay h m /\ forall d, hasDay h d -> d <= m.

(** The comparator of [calculateStreak], on the days. *)
Definition newestFirst (a b : Z) : Z := DateFns.getTime b - DateFns.getTime a.

(** A history row for a day; the other columns play no part. *)
Definition completionOn (d : Z) : WorkoutRow := mkRow "" "" d (JArr []) "".

(** The comparator of [calculateStreak], as it is written there. *)
Abbreviation byDate :=
  (fun a b : WorkoutRow => DateFns.getTime (date b) - DateFns.getTime (date a)).

(** Settles the next comparison of a sort whose outcome arithmetic decides. *)
Ltac decide_order :=
  match goal with
  | |- context [?a <=? ?b] =>
      destruct (Z.leb_spec a b); [|lia];
      cbn [JsArray.insertBy completionOn date]
  end.

End StreakSpec.

Module ScheduleSpec.
Import JsArray Schedule.

(** Position of a weekday in the [days] of the schedule screen. *)
Definition dayIndex (d : string) : Z :=
  findIndex (fun day => String.eqb (id day) d) days.

(** Two days of the selection lie next to each other in [days]. *)
Definition hasAdjacentDays (selection : list string) : Prop :=
  exists d1 d2,
    In d1 selection /\ In d2 selection /\ Z.abs (dayIndex d1 - dayIndex d2) = 1.

(** Some element of [x :: l] and its successor in the array differ by
    one. *)
Fixpoint neighboursFrom (x : Z) (l : list Z) : bool :=
  match l with
  | [] => false
  | y :: l' => (Z.abs (y - x) =? 1) || neighboursFrom y l'
  end.

Definition valid : Validation := mkValidation true None.

Definition tooManyDays : Validation :=
  mkValidation false (Some "Maximum of 4 workout days allowed"%string).

Definition restDayRequired : Validation :=
  mkValidation false (Some "Rest day required between workouts"%string).

(** Closes one direction of one case of the validator's outcome. *)
Ltac settle_case :=
  first
    [ discriminate
    | reflexivity
    | assumption
    | intros; lia
    | intros [? ?]; (lia || contradiction) ].

End ScheduleSpec.

Module OnboardingSpec.
Import JsArray Onboarding.

(** Position of a weekday in the [days] of the onboarding screen. *)
Definition dayIndex (d : string) : Z :=
  findIndex (fun day => String.eqb (id day) d) days.

Definition hasAdjacentDays (selection : list string) : Prop :=
  exists d1 d2,
    In d1 selection /\ In d2 selection /\ Z.abs (dayIndex d1 - dayIndex d2) = 1.

End OnboardingSpec.

Module UpdateStatsSpec.
Import StreakUtils StreakSpec UpdateStats.

(** A database that holds two completions of one user and no statistics
    yet, and accepts every write. *)
Definition sampleBackend : Backend :=
  mkBackend
    (fun _ => mkReply (Some [completionOn 100; completionOn 99]) None)
    (fun _ =>
       mkReply None
         (Some (mkError (Some (JStr "no rows")) (Some (JStr "PGRST116")))))
    (fun _ _ => mkReply None None)
    (fun _ => mkReply None None).

(** The checks [createClient] makes on its two arguments. *)
Definition requireUrlAndKey (supabaseUrl supabaseKey : string) : Throws unit :=
  if String.eqb supabaseUrl "" then
    throw (mkError (Some (JStr "supabaseUrl is required.")) None)
  else if String.eqb supabaseKey "" then
    throw (mkError (Some (JStr "supabaseKey is required.")) None)
  else ret tt.

Definition sampleEnv (name : string) : option string :=
  if String.eqb name "SUPABASE_URL" then Some "https://p.supabase.co"%string
  else if String.eqb name "SUPABASE_ANON_KEY" then Some "anon-key"%string
  else None.

Definition sampleRuntime : Runtime :=
  mkRuntime (DateFns.mkInstant 100 43200000) "1970-04-11T12:00:00.000Z"
    (fun _ => 0) sampleEnv requireUrlAndKey.

Definition sampleRequest : Request :=
  mkRequest "POST" (inr (JObj [("user_id", JStr "u-1")]%string)).

End UpdateStatsSpec.

(** ** [toggleDay] and [clearAllDays] of [src/app/(tabs)/schedule.tsx] *)

Module ScheduleScreen.
Import JsArray Schedule.

(** What a tap leaves behind: the next [selectedDays], the error toast
    shown if any, and the array handed to [AsyncStorage.setItem] under
    [workoutDays] if any. *)
Record Outcome : Type := mkOutcome {
  nextSelectedDays : list string;
  errorToast : option string;
  written : option (list string)
}.

(** [validation.message || 'Invalid selection']. *)
Definition toastText (validation : Validation) : string :=
  match message validation with
  | Some m => if String.eqb m "" then "Invalid selection"%string else m
  | None => "Invalid selection"%string
  end.

(** [toggleDay]; [isMounted] is [isMounted.current], which no statement
    between its two tests changes. *)
Definition toggleDay (isMounted : bool) (selectedDays : list string)
    (dayId : string) : Outcome :=
  if negb isMounted then mkOutcome selectedDays None None
  else
    let isCurrentlySelected := includes selectedDays dayId in
    if isCurrentlySelected then
      let newSelection :=
        filter (fun d => negb (String.eqb d dayId)) selectedDays in
      mkOutcome newSelection None (Some newSelection)
    else
      let validation := validateDayToggle selectedDays dayId true in
      if negb (isValid validation) then
        mkOutcome selectedDays (Some (toastText validation)) None
      else
        let newSelection := selectedDays ++ [dayId] in
        mkOutcome newSelection None (Some newSelection).

(** The next [selectedDays] of [clearAllDays]. *)
Definition clearAllDays (isMounted : bool) (selectedDays : list string)
    : list string :=
  if negb isMounted then selectedDays
  else if Nat.eqb (List.length selectedDays) 0 then selectedDays
  else [].

(** The selections the screen goes through from [start], the value of
    [selectedDays] once loaded. *)
Inductive reachableFrom (start : list string) : list string -> Prop :=
| reachable_start : reachableFrom start start
| reachable_tap :
    forall isMounted dayId selectedDays,
      reachableFrom start selectedDays ->
      reachableFrom start
        (nextSelectedDays (toggleDay isMounted selectedDays dayId))
| reachable_clear :
    forall isMounted selectedDays,
      reachableFrom start selectedDays ->
      reachableFrom start (clearAllDays isMounted selectedDays).

(** A selection the validator would have let through day by day: no day
    twice, at most four days, no two of them neighbours in [days]. *)
Definition wellSpaced (selection : list string) : Prop :=
  NoDup selection /\
  (List.length selection <= 4)%nat /\
  ~ ScheduleSpec.hasAdjacentDays selection.

End ScheduleScreen.

(** ** [calculateStatsFromHistory] of [src/lib/statsService.ts] *)

Module StatsService.
Import StreakUtils.

Record UserStats : Type := mkStats {
  totalWorkouts : Z;
  currentStreak : Z;
  longestStreak : Z;
  averageWorkoutDuration : Z
}.

Definition defaultStats : UserStats := mkStats 0 0 0 0.

(** [calculateStatsFromHistory]; [now] is the [new Date()] of the
    [calculateStreak] it calls. *)
Definition calculateStatsFromHistory (now : DateFns.Instant)
    (workoutHistory : WorkoutHistory) : UserStats :=
  let totalWorkouts := Z.of_nat (List.length workoutHistory) in
  let currentStreak := calculateStreak now workoutHistory in
  let longestStreak := currentStreak in
  let averageWorkoutDuration := 30 in
  mkStats totalWorkouts currentStreak longestStreak averageWorkoutDuration.

End StatsService.

(** ** Further vocabulary *)

Module TimeZones.

(** A runtime on UTC, or in a zone that is never ahead of it. *)
Definition utc (d : Z) : Z := 0.

(** Europe/London over the dates of 2024 (days counted from 1970-01-01):
    summer time, one hour ahead of UTC, holds at local midnight from
    2024-04-01 (day 19814) to 2024-10-27 (day 20023). *)
Definition europeLondon2024 (d : Z) : Z :=
  if (19814 <=? d) && (d <=? 20023) then -1 else 0.

(** The runtime gives one and the same shift to all the days of a
    history. *)
Definition oneOffset (shift : Z -> Z) (h : StreakUtils.WorkoutHistory) : Prop :=
  forall d d',
    StreakSpec.hasDay h d -> StreakSpec.hasDay h d' -> shift d = shift d'.

End TimeZones.

Module StreakRuns.
Import StreakUtils.

(** How many leading entries of [days] are [d], [d - 1], [d - 2], ... in
    this order. *)
Fixpoint runFrom (d : Z) (days : list Z) : Z :=
  match days with
  | [] => 0
  | x :: days' => if x =? d then 1 + runFrom (d - 1) days' else 0
  end.

(** The number of exercises the handler counts for a workout. *)
Definition exerciseCount (workout : WorkoutRow) : Z :=
  match exercises workout with
  | JArr items => Z.of_nat (List.length items)
  | _ => 0
  end.

(** The [k] days from [d] on, in order. *)
Definition daysFrom (d : Z) (k : nat) : list Z :=
  map (fun j => d + Z.of_nat j) (seq 0 k).

End StreakRuns.

Module OnboardingOrder.
Import JsArray Onboarding OnboardingSpec.

(** Two entries that follow each other in the selection are neighbours in
    [days]. *)
Definition neighboursInOrder (selection : list string) : Prop :=
  exists pre a b post,
    selection = pre ++ a :: b :: post /\
    Z.abs (dayIndex b - dayIndex a) = 1.

End OnboardingOrder.

Module UpdateStatsShapes.
Import StreakUtils UpdateStats.

(** The body [{ error: text }]. *)
Definition errorBody (text : string) : Json :=
  JObj [("error", JStr text)]%string.

(** The client the handler creates first, or the error thrown. *)
Definition clientCreated (rt : Runtime) : Throws unit :=
  createClient rt (orEmpty (env rt "SUPABASE_URL"))
    (orEmpty (env rt "SUPABASE_ANON_KEY")).

(** The body [{ success: true, stats: { ... } }] for a history. *)
Definition successBody (rt : Runtime) (workoutHistory : WorkoutHistory) : Json :=
  JObj [ ("success", JBool true);
         ("stats",
          JObj (statsFields
                  (Z.of_nat (List.length workoutHistory))
                  (calculateStreak (now rt) workoutHistory)
                  (calculateLongestStreak (utcDayShift rt) workoutHistory)
                  (calculateAverageWorkoutDuration workoutHistory))) ]%string.

(** The rows the handler works with for a user: those the database
    returned, none when it returned [null]. *)
Definition historyOf (db : Backend) (user_id : option Json) : WorkoutHistory :=
  match data (selectHistory db user_id) with
  | Some rows => rows
  | None => []
  end.

(** The reply to the write the handler issues for a user: an update when
    the lookup found a row of statistics, an insert otherwise. *)
Definition writeReply (rt : Runtime) (db : Backend) (user_id : option Json)
    : Reply unit :=
  let workoutHistory := historyOf db user_id in
  let fields :=
    statsFields
      (Z.of_nat (List.length workoutHistory))
      (calculateStreak (now rt) workoutHistory)
      (calculateLongestStreak (utcDayShift rt) workoutHistory)
      (calculateAverageWorkoutDuration workoutHistory) in
  match data (selectStats db user_id) with
  | Some _ =>
      updateStats db
        (JObj (fields ++ [("updated_at", JStr (nowISOString rt))]%string))
        user_id
  | None =>
      insertStats db
        (JObj (("user_id", undefinedToNull user_id)%string :: fields))
  end.

(** The error of the lookup of [user_stats] that the handler throws: any
    but the one with code [PGRST116], which [single()] gives when there is
    no row. *)
Definition lookupFailure (db : Backend) (user_id : option Json)
    : option JsError :=
  match error (selectStats db user_id) with
  | Some e => if differsFrom (code e) "PGRST116" then Some e else None
  | None => None
  end.

End UpdateStatsShapes.

(** ** The workouts of the schedule screen, [src/app/(tabs)/schedule.tsx] *)

Module ScheduleWorkouts.
Import JsArray Schedule.

Record Exercise : Type := mkExercise { exerciseId : string; name : string }.

Record WorkoutPlan : Type := mkPlan { planExercises : list Exercise }.

Definition defaultExercises : list Exercise :=
  [ mkExercise "1" "Push-ups";
    mkExercise "2" "Pull-ups";
    mkExercise "3" "Squats";
    mkExercise "4" "Dips" ]%string.

(** [customWorkouts], an object used as a map from day to plan: its own
    properties in order, each key once.  The keys looked up are ids of
    [days]; what an object inherits is not among them. *)
Definition CustomWorkouts : Type := list (string * WorkoutPlan).

(** [customWorkouts[key]]; [None] is [undefined]. *)
Fixpoint getProp (o : CustomWorkouts) (key : string) : option WorkoutPlan :=
  match o with
  | [] => None
  | (k, v) :: o' => if String.eqb k key then Some v else getProp o' key
  end.

(** [{ ...o, [key]: value }]: the value of an existing key is replaced
    where it stands, a new key comes last. *)
Fixpoint setProp (o : CustomWorkouts) (key : string) (value : WorkoutPlan)
    : CustomWorkouts :=
  match o with
  | [] => [(key, value)]
  | (k, v) :: o' =>
      if String.eqb k key then (k, value) :: o'
      else (k, v) :: setProp o' key value
  end.

(** [getWorkoutForDay]; [None] is [null]. *)
Definition getWorkoutForDay (selectedDays : list string)
    (customWorkouts : CustomWorkouts) (dayId : string) : option WorkoutPlan :=
  if negb (includes selectedDays dayId) then None
  else
    match getProp customWorkouts dayId with
    | Some plan => Some plan
    | None => Some (mkPlan defaultExercises)
    end.

(** [handleRemoveExercise]: the next [customWorkouts], which is also what
    [saveCustomWorkouts] is given when it changes. *)
Definition handleRemoveExercise (isMounted : bool) (selectedDays : list string)
    (customWorkouts : CustomWorkouts) (dayId : string) (removedId : string)
    : CustomWorkouts :=
  if negb isMounted then customWorkouts
  else
    match getWorkoutForDay selectedDays customWorkouts dayId with
    | None => customWorkouts
    | Some workout =>
        let updatedExercises :=
          filter (fun exercise => negb (String.eqb (exerciseId exercise) removedId))
            (planExercises workout) in
        let updatedWorkout := mkPlan updatedExercises in
        setProp customWorkouts dayId updatedWorkout
    end.

End ScheduleWorkouts.

(** * Properties *)

(** ** Facts about the array methods *)

Module JsArrayFacts.
Import JsArray.

Section SortAny.
Context {A : Type}.
Variable compareFn : A -> A -> Z.

Lemma insertBy_perm (x : A) (l : list A) :
  Permutation (insertBy compareFn x l) (x :: l).
Proof.
  induction l as [|y l IH]; simpl.
  - apply Permutation_refl.
  - destruct (compareFn x y <=? 0).
    + apply Permutation_refl.
    + eapply perm_trans; [apply perm_skip, IH | apply perm_swap].
Qed.

Lemma sort_perm (l : list A) : Permutation (sort compareFn l) l.
Proof.
  induction l as [|x l IH]; simpl.
  - constructor.
  - eapply perm_trans; [apply insertBy_perm | apply perm_skip, IH].
Qed.

Lemma sort_in (l : list A) (x : A) : In x (sort compareFn l) <-> In x l.
Proof.
  split; apply Permutation_in;
    [apply sort_perm | apply Permutation_sym, sort_perm].
Qed.

Lemma sort_cons_inv (l : list A) : l <> [] -> sort compareFn l <> [].
Proof.
  intros Hl Hs. apply Hl.
  apply Permutation_nil. rewrite <- Hs. apply sort_perm.
Qed.
End SortAny.

(** Sorting records by a key, then reading the keys, is sorting the keys. *)
Section SortByKey.
Context {A : Type}.
Variable key : A -> Z.
Variable compareFn : A -> A -> Z.
Variable compareKey : Z -> Z -> Z.
Hypothesis compare_key :
  forall x y, compareFn x y = compareKey (key x) (key y).

Lemma map_insertBy (x : A) (l : list A) :
  map key (insertBy compareFn x l) = insertBy compareKey (key x) (map key l).
Proof.
  induction l as [|y l IH]; simpl; [reflexivity|].
  rewrite compare_key.
  destruct (compareKey (key x) (key y) <=? 0); simpl; [reflexivity|].
  now rewrite IH.
Qed.

Lemma map_sort (l : list A) :
  map key (sort compareFn l) = sort compareKey (map key l).
Proof.
  induction l as [|x l IH]; [reflexivity|].
  change (sort compareFn (x :: l)) with (insertBy compareFn x (sort compareFn l)).
  now rewrite map_insertBy, IH.
Qed.
End SortByKey.

(** For a comparator that is a total order, the sorted array depends on the
    elements only, not on their order in the input. *)
Section SortOrder.
Variable compareFn : Z -> Z -> Z.
Hypothesis compare_total : forall x y, compareFn x y <= 0 \/ compareFn y x <= 0.
Hypothesis compare_trans :
  forall x y z, compareFn x y <= 0 -> compareFn y z <= 0 -> compareFn x z <= 0.
Hypothesis compare_antisym :
  forall x y, compareFn x y <= 0 -> compareFn y x <= 0 -> x = y.

Lemma insertBy_sorted (x : Z) (l : list Z) :
  StronglySorted (before compareFn) l -> StronglySorted (before compareFn) (insertBy compareFn x l).
Proof.
  induction 1 as [|y l Hs IH Hy]; simpl.
  - repeat constructor.
  - destruct (Z.leb_spec (compareFn x y) 0) as [Hxy|Hxy].
    + constructor; [constructor; assumption|].
      constructor; [exact Hxy|].
      eapply Forall_impl; [|exact Hy]. intros z Hz. unfold before in *.
      eapply compare_trans; eassumption.
    + constructor; [exact IH|].
      assert (Hyx : before compareFn y x).
      { destruct (compare_total x y); unfold before; lia. }
      rewrite Forall_forall. intros z Hz.
      apply (Permutation_in _ (insertBy_perm compareFn x l)) in Hz.
      destruct Hz as [<-|Hz]; [exact Hyx|].
      rewrite Forall_forall in Hy. now apply Hy.
Qed.

Lemma sort_sorted (l : list Z) : StronglySorted (before compareFn) (sort compareFn l).
Proof.
  induction l as [|x l IH]; simpl.
  - constructor.
  - apply insertBy_sorted, IH.
Qed.

Lemma sorted_perm_eq (l1 l2 : list Z) :
  StronglySorted (before compareFn) l1 -> StronglySorted (before compareFn) l2 ->
  Permutation l1 l2 -> l1 = l2.
Proof.
  intros H1. revert l2.
  induction H1 as [|x l1 Hs1 IH Hx]; intros l2 H2 Hp.
  - apply Permutation_nil in Hp. now subst.
  - destruct H2 as [|y l2 Hs2 Hy].
    + apply Permutation_sym, Permutation_nil in Hp. discriminate.
    + assert (x = y) as ->.
      { rewrite Forall_forall in Hx, Hy.
        assert (Hyin : In y (x :: l1)).
        { apply (Permutation_in _ (Permutation_sym Hp)). now left. }
        assert (Hxin : In x (y :: l2)).
        { apply (Permutation_in _ Hp). now left. }
        destruct Hyin as [->|Hyin]; [reflexivity|].
        destruct Hxin as [->|Hxin]; [reflexivity|].
        apply compare_antisym; [apply Hx | apply Hy]; assumption. }
      f_equal. apply IH; [assumption|].
      eapply Permutation_cons_inv; eassumption.
Qed.

Lemma sort_perm_eq (l l' : list Z) :
  Permutation l l' -> sort compareFn l = sort compareFn l'.
Proof.
  intros Hp. apply sorted_perm_eq; try apply sort_sorted.
  eapply perm_trans; [apply sort_perm|].
  eapply perm_trans; [exact Hp|]. apply Permutation_sym, sort_perm.
Qed.
End SortOrder.

Lemma oldest_total (x y : Z) : x - y <= 0 \/ y - x <= 0.
Proof. lia. Qed.

Lemma oldest_trans (x y z : Z) : x - y <= 0 -> y - z <= 0 -> x - z <= 0.
Proof. lia. Qed.


Lemma fromSet_in (l : list Z) (x : Z) : In x (fromSet l) <-> In x l.
Proof.
  induction l as [|y l IH]; simpl; [tauto|].
  rewrite filter_In, IH, negb_true_iff, Z.eqb_neq.
  destruct (Z.eq_dec x y); intuition congruence.
Qed.

Lemma fromSet_NoDup (l : list Z) : NoDup (fromSet l).
Proof.
  induction l as [|y l IH]; simpl; constructor.
  - rewrite filter_In, negb_true_iff, Z.eqb_neq. tauto.
  - now apply NoDup_filter.
Qed.

End JsArrayFacts.

(** ** Facts about the date functions *)

Module DateFnsFacts.
Import DateFns.

(** A midnight lies within a day exactly when it is that day's midnight. *)
Lemma within_day (d : Z) (c : Instant) :
  isWithinInterval (startOfDay (parseISO d)) (startOfDay c) (endOfDay c)
  = (d =? day c).
Proof.
  unfold isWithinInterval, leInstant, compareLocalAsc; simpl.
  destruct (Z.ltb_spec (day c) d), (Z.ltb_spec d (day c)),
    (Z.eqb_spec d (day c)); simpl; try reflexivity; lia.
Qed.

(** Between two midnights, the full days are the calendar days. *)
Lemma differenceInDays_midnight (a b : Instant) :
  msOfDay a = 0 -> msOfDay b = 0 -> differenceInDays a b = day a - day b.
Proof.
  intros Ha Hb.
  unfold differenceInDays, differenceInCalendarDays, compareLocalAsc; simpl.
  rewrite Ha, Hb; simpl.
  destruct (Z.ltb_spec (day a) (day b)) as [Hlt|Hge].
  - replace (day a - -1 * Z.abs (day a - day b)) with (day b) by lia.
    rewrite Z.ltb_irrefl. destruct (Z.eqb_spec 0 (- -1)); lia.
  - destruct (Z.ltb_spec (day b) (day a)) as [Hgt|Hle].
    + replace (day a - 1 * Z.abs (day a - day b)) with (day b) by lia.
      rewrite Z.ltb_irrefl. destruct (Z.eqb_spec 0 (- (1))); lia.
    + replace (day a - 0 * Z.abs (day a - day b)) with (day b) by lia.
      rewrite Z.ltb_irrefl. destruct (Z.eqb_spec 0 (- 0)); lia.
Qed.

Lemma differenceInDays_today (now : Instant) (d : Z) :
  differenceInDays (startOfDay now) (parseISO d) = day now - d.
Proof. now rewrite differenceInDays_midnight. Qed.

Lemma differenceInDays_parsed (a b : Z) :
  differenceInDays (parseISO a) (parseISO b) = a - b.
Proof. now rewrite differenceInDays_midnight. Qed.

End DateFnsFacts.

(** ** The current streak *)

Module StreakFacts.
Import JsArray DateFns StreakUtils StreakSpec JsArrayFacts DateFnsFacts.

Lemma newestFirst_total (x y : Z) : newestFirst x y <= 0 \/ newestFirst y x <= 0.
Proof. unfold newestFirst, getTime. lia. Qed.

Lemma newestFirst_trans (x y z : Z) :
  newestFirst x y <= 0 -> newestFirst y z <= 0 -> newestFirst x z <= 0.
Proof. unfold newestFirst, getTime. lia. Qed.

Lemma newestFirst_antisym (x y : Z) :
  newestFirst x y <= 0 -> newestFirst y x <= 0 -> x = y.
Proof. unfold newestFirst, getTime. lia. Qed.

(** The days of the sorted history are the sorted days of the history. *)
Lemma sortedHistory_days (h : WorkoutHistory) :
  map date (sort byDate h)
  = sort newestFirst (map date h).
Proof. apply map_sort. reflexivity. Qed.

Lemma sortedHistory_reorder (h h' : WorkoutHistory) :
  Permutation (map date h) (map date h') ->
  map date (sort byDate h)
  = map date (sort byDate h').
Proof.
  intros Hp. rewrite !sortedHistory_days.
  apply sort_perm_eq; auto using newestFirst_total, newestFirst_antisym.
  exact newestFirst_trans.
Qed.

(** One turn of the loop, with the interval tests read as tests on days. *)
Lemma streakLoop_cons (today : Instant) (i : nat) (entry : WorkoutRow)
    (entries : WorkoutHistory) (streak : Z) (currentDate : Instant) :
  streakLoop today i (entry :: entries) streak currentDate
  = if Nat.eqb i 0 && (date entry =? day today)
    then streakLoop today (S i) entries 1 (subDays today 1)
    else if date entry =? day currentDate
    then streakLoop today (S i) entries (streak + 1) (subDays currentDate 1)
    else streak.
Proof. simpl. now rewrite !within_day. Qed.

(** The loop reads the [date] of the entries and nothing else. *)
Lemma streakLoop_days (today : Instant) (e1 : WorkoutHistory) :
  forall (e2 : WorkoutHistory) (i : nat) (streak : Z) (currentDate : Instant),
    map date e1 = map date e2 ->
    streakLoop today i e1 streak currentDate
    = streakLoop today i e2 streak currentDate.
Proof.
  induction e1 as [|r1 e1 IH]; intros [|r2 e2] i streak currentDate Hm;
    try discriminate; [reflexivity|].
  injection Hm as Hd Hm. rewrite !streakLoop_cons, Hd.
  now rewrite !(IH e2).
Qed.

(** [calculateStreak] once the history is sorted. *)
Lemma calculateStreak_sorted (now : Instant) (h : WorkoutHistory)
    (first : WorkoutRow) (rest : WorkoutHistory) :
  sort byDate h = first :: rest ->
  calculateStreak now h
  = if day now - date first >? 1 then 0
    else streakLoop (startOfDay now) 0 (first :: rest) 0 (startOfDay now).
Proof.
  intros Hs. unfold calculateStreak.
  destruct h as [|r h]; [discriminate|].
  cbn [List.length Nat.eqb]. rewrite Hs.
  now rewrite differenceInDays_today.
Qed.

Lemma calculateStreak_reorder (now : Instant) (h h' : WorkoutHistory) :
  Permutation (map date h) (map date h') ->
  calculateStreak now h = calculateStreak now h'.
Proof.
  intros Hp. pose proof (sortedHistory_reorder h h' Hp) as Hs.
  destruct (sort byDate h)
    as [|r1 s1] eqn:E1;
  destruct (sort byDate h')
    as [|r2 s2] eqn:E2; try discriminate.
  - destruct h; [|now apply sort_cons_inv in E1].
    destruct h'; [reflexivity|now apply sort_cons_inv in E2].
  - rewrite (calculateStreak_sorted now h r1 s1 E1).
    rewrite (calculateStreak_sorted now h' r2 s2 E2).
    rewrite (streakLoop_days _ _ _ _ _ _ Hs).
    injection Hs as Hd _. now rewrite Hd.
Qed.

(** Without a completion today the loop leaves at its first entry. *)
Lemma calculateStreak_without_today (now : Instant) (h : WorkoutHistory) :
  ~ hasDay h (day now) -> calculateStreak now h = 0.
Proof.
  intros Hno.
  destruct (sort byDate h)
    as [|first rest] eqn:Es.
  - destruct h; [reflexivity|now apply sort_cons_inv in Es].
  - rewrite (calculateStreak_sorted now h first rest Es).
    destruct (day now - date first >? 1); [reflexivity|].
    rewrite streakLoop_cons. simpl.
    assert (Hne : date first <> day now).
    { intros Heq. apply Hno. unfold hasDay. rewrite <- Heq.
      apply in_map. apply (sort_in byDate h). rewrite Es. now left. }
    apply Z.eqb_neq in Hne. now rewrite Hne.
Qed.

(** C5. [calculateStreak] is [0] on the empty history, and [0] on a history
    whose most recent completion lies more than one calendar day before
    today. *)
Theorem calculateStreak_broken (now : Instant) (h : WorkoutHistory) :
  (h = [] -> calculateStreak now h = 0) /\
  (forall m, mostRecent h m -> 1 < day now - m -> calculateStreak now h = 0).
Proof.
  split.
  - intros ->. reflexivity.
  - intros m [Hm Hmax] Hgap.
    destruct (sort byDate h)
      as [|first rest] eqn:Es.
    + destruct h; [reflexivity|now apply sort_cons_inv in Es].
    + rewrite (calculateStreak_sorted now h first rest Es).
      assert (Hle : date first <= m).
      { apply Hmax. apply in_map. apply (sort_in byDate h). rewrite Es. now left. }
      destruct (Z.gtb_spec (day now - date first) 1); [reflexivity|lia].
Qed.

Lemma calculateStreak_broken_witness :
  mostRecent [completionOn 7; completionOn 5] 7 /\
  calculateStreak (mkInstant 10 0) [completionOn 7; completionOn 5] = 0.
Proof.
  assert (Hm : mostRecent [completionOn 7; completionOn 5] 7).
  { split; [now left|]. intros d [<-|[<-|[]]]; simpl; lia. }
  split; [exact Hm|].
  apply (proj2 (calculateStreak_broken (mkInstant 10 0)
                  [completionOn 7; completionOn 5]) 7 Hm).
  simpl. lia.
Defined.

(** C6. Completions on exactly today, yesterday and the day before give a
    streak of [3]; completions on exactly today and three days ago give a
    streak of [1]; in whatever order the history lists them. *)
Theorem calculateStreak_examples (now : Instant) (h : WorkoutHistory) :
  (Permutation (map date h) [day now; day now - 1; day now - 2] ->
   calculateStreak now h = 3) /\
  (Permutation (map date h) [day now; day now - 3] ->
   calculateStreak now h = 1).
Proof.
  split; intros Hp.
  - rewrite (calculateStreak_reorder now h
               (map completionOn [day now; day now - 1; day now - 2])) by exact Hp.
    erewrite calculateStreak_sorted
      by (unfold sort; cbn [map fold_right insertBy completionOn date];
          unfold getTime; repeat decide_order; reflexivity).
    cbn [completionOn date].
    destruct (Z.gtb_spec (day now - day now) 1); [lia|].
    rewrite !streakLoop_cons. cbn [completionOn date Nat.eqb andb subDays startOfDay day].
    rewrite Z.eqb_refl.
    rewrite Z.eqb_refl.
    replace (day now - 1 - 1) with (day now - 2) by lia.
    now rewrite Z.eqb_refl.
  - rewrite (calculateStreak_reorder now h
               (map completionOn [day now; day now - 3])) by exact Hp.
    erewrite calculateStreak_sorted
      by (unfold sort; cbn [map fold_right insertBy completionOn date];
          unfold getTime; repeat decide_order; reflexivity).
    cbn [completionOn date].
    destruct (Z.gtb_spec (day now - day now) 1); [lia|].
    rewrite !streakLoop_cons. cbn [completionOn date Nat.eqb andb subDays startOfDay day].
    rewrite Z.eqb_refl.
    destruct (Z.eqb_spec (day now - 3) (day now - 1)); [lia|reflexivity].
Qed.

Lemma calculateStreak_examples_witness :
  calculateStreak (mkInstant 50 0)
    [completionOn 49; completionOn 50; completionOn 48] = 3.
Proof.
  apply (proj1 (calculateStreak_examples (mkInstant 50 0)
                 [completionOn 49; completionOn 50; completionOn 48])).
  apply perm_swap.
Defined.

(** C1. A history whose completions are the three days up to yesterday has
    a run of length [3] ending yesterday; [calculateStreak] passes the test
    on the last workout and then leaves the loop at the first entry, because
    [currentDate] still is today: the result is [0], not [3]. *)
Theorem calculateStreak_run_ending_yesterday (now : Instant) :
  calculateStreak now
    [ completionOn (day now - 1); completionOn (day now - 2);
      completionOn (day now - 3) ] = 0.
Proof.
  apply calculateStreak_without_today.
  unfold hasDay. simpl. intros [H|[H|[H|[]]]]; lia.
Qed.

End StreakFacts.

(** ** The longest streak *)

Module LongestFacts.
Import JsArray DateFns StreakUtils StreakSpec JsArrayFacts DateFnsFacts.
Import StreakFacts.

Lemma longestLoop_cons (p q : Z) (rest : list Z) (c L : Z) :
  longestLoop p (q :: rest) c L
  = let c' := if q - p =? 1 then c + 1 else 1 in
    longestLoop q rest c' (if c' >? L then c' else L).
Proof. simpl. now rewrite differenceInDays_parsed. Qed.

(** An ascending array without repetition ascends strictly. *)
Lemma ascending_strict (l : list Z) :
  StronglySorted (before (fun a b => a - b)) l -> NoDup l ->
  StronglySorted Z.lt l.
Proof.
  induction 1 as [|x l Hs IH Hx]; intros Hnd; constructor.
  - apply IH. now inversion Hnd.
  - inversion Hnd as [|? ? Hnin _]; subst.
    rewrite Forall_forall in *. intros y Hy.
    specialize (Hx y Hy). unfold before in Hx.
    assert (x <> y) by (intros ->; contradiction). lia.
Qed.

(** The loop invariant.  [P] holds of the days already passed, of which
    [p] is the last; [c] is the length of the run that ends at [p], and [L]
    the longest run among the days passed. *)
Lemma longestLoop_invariant (rest : list Z) :
  forall (p c L : Z) (P : Z -> Prop),
    StronglySorted Z.lt (p :: rest) ->
    P p -> (forall x, P x -> x <= p) ->
    1 <= c <= L ->
    (forall j, 0 <= j < c -> P (p - j)) -> ~ P (p - c) ->
    (exists d, forall j, 0 <= j < L -> P (d + j)) ->
    (forall d k, (forall j, 0 <= j < k -> P (d + j)) -> k <= L) ->
    1 <= longestLoop p rest c L /\
    (exists d, forall j, 0 <= j < longestLoop p rest c L ->
                 P (d + j) \/ In (d + j) rest) /\
    (forall d k, (forall j, 0 <= j < k -> P (d + j) \/ In (d + j) rest) ->
                 k <= longestLoop p rest c L).
Proof.
  induction rest as [|q rest IH]; intros p c L P Hsorted Hp Hmax Hc Hrun Hend
    [d0 Hd0] Hbest.
  - simpl. split; [lia|]. split.
    + exists d0. intros j Hj. left. now apply Hd0.
    + intros d k Hk. apply (Hbest d). intros j Hj.
      destruct (Hk j Hj) as [H|[]]. exact H.
  - rewrite longestLoop_cons. cbv zeta.
    assert (Hpq : p < q).
    { inversion Hsorted as [|? ? _ Hall]; subst.
      inversion Hall; subst. assumption. }
    assert (Hsorted' : StronglySorted Z.lt (q :: rest)).
    { now inversion Hsorted. }
    set (c' := if q - p =? 1 then c + 1 else 1).
    set (L' := if c' >? L then c' else L).
    set (P' := fun x => P x \/ x = q).
    assert (Hc' : 1 <= c').
    { unfold c'. destruct (q - p =? 1); lia. }
    assert (HL' : c' <= L' /\ L <= L' /\ (L' = c' \/ L' = L)).
    { unfold L'. destruct (Z.gtb_spec c' L); lia. }
    assert (Hrun' : forall j, 0 <= j < c' -> P' (q - j)).
    { intros j Hj. unfold P'.
      destruct (Z.eq_dec j 0) as [->|Hj0]; [right; lia|]. left.
      unfold c' in Hj. destruct (Z.eqb_spec (q - p) 1) as [Hcons|Hgap]; [|lia].
      replace (q - j) with (p - (j - 1)) by lia. apply Hrun. lia. }
    assert (Hend' : ~ P' (q - c')).
    { unfold P', c'. intros [Hin|Heq].
      - destruct (Z.eqb_spec (q - p) 1) as [Hcons|Hgap].
        + apply Hend. replace (p - c) with (q - (c + 1)) by lia. exact Hin.
        + apply Hmax in Hin. lia.
      - destruct (q - p =? 1); lia. }
    assert (Hmax' : forall x, P' x -> x <= q).
    { intros x [Hx | ->]; [apply Hmax in Hx|]; lia. }
    assert (Hbest' : forall d k, (forall j, 0 <= j < k -> P' (d + j)) -> k <= L').
    { intros d k Hk.
      destruct (Z.le_gt_cases k c') as [Hle|Hgt]; [lia|].
      destruct (Z.eq_dec (d + (k - 1)) q) as [Hlast|Hlast].
      - exfalso. apply Hend'.
        replace (q - c') with (d + (k - 1 - c')) by lia. apply Hk. lia.
      - enough (k <= L) by lia. apply (Hbest d). intros j Hj.
        destruct (Hk j Hj) as [Hin|Heq]; [exact Hin|].
        exfalso.
        assert (Hq : P' (d + (k - 1))) by (apply Hk; lia).
        apply Hmax' in Hq. lia. }
    assert (Hex' : exists d, forall j, 0 <= j < L' -> P' (d + j)).
    { destruct HL' as (_ & _ & [HLc|HLL]).
      - exists (q - (c' - 1)). intros j Hj.
        replace (q - (c' - 1) + j) with (q - (c' - 1 - j)) by lia.
        apply Hrun'. lia.
      - exists d0. intros j Hj. left. apply Hd0. lia. }
    destruct (IH q c' L' P' Hsorted' (or_intror eq_refl) Hmax'
                (conj Hc' (proj1 HL')) Hrun' Hend' Hex' Hbest')
      as (H1 & [d Hd] & Hub).
    split; [exact H1|]. split.
    + exists d. intros j Hj. destruct (Hd j Hj) as [[Hin|Heq]|Hin].
      * now left.
      * right. left. now symmetry.
      * right. now right.
    + intros d1 k Hk. apply (Hub d1). intros j Hj.
      destruct (Hk j Hj) as [Hin|[Heq|Hin]].
      * left. now left.
      * left. right. now symmetry.
      * now right.
Qed.

(** The array the loop of [calculateLongestStreak] runs over. *)
Lemma calculateLongestStreak_sortedDays (shift : Z -> Z) (h : WorkoutHistory) :
  h <> [] ->
  calculateLongestStreak shift h
  = match sortDefault (fromSet (map (fun d => d + shift d) (map date h))) with
    | [] => 1
    | first :: rest => longestLoop first rest 1 1
    end.
Proof.
  intros Hne. destruct h as [|r h]; [contradiction|].
  unfold calculateLongestStreak. cbn [List.length Nat.eqb].
  now rewrite map_map.
Qed.

Lemma sortedDays_in (l : list Z) (x : Z) :
  In x (sortDefault (fromSet l)) <-> In x l.
Proof. unfold sortDefault. now rewrite sort_in, fromSet_in. Qed.

Lemma sortedDays_strict (l : list Z) :
  StronglySorted Z.lt (sortDefault (fromSet l)).
Proof.
  apply ascending_strict.
  - apply sort_sorted; intros; unfold before in *; lia.
  - eapply Permutation_NoDup; [|apply fromSet_NoDup].
    apply Permutation_sym, sort_perm.
Qed.

(** What [calculateLongestStreak] returns on a history that is not empty,
    in any runtime: the length of the longest run of consecutive UTC days
    among the day strings. *)
Lemma calculateLongestStreak_keys (shift : Z -> Z) (h : WorkoutHistory) :
  h <> [] ->
  let keys := map (fun d => d + shift d) (map date h) in
  1 <= calculateLongestStreak shift h /\
  (exists d, forall j, 0 <= j < calculateLongestStreak shift h ->
               In (d + j) keys) /\
  (forall d k, (forall j, 0 <= j < k -> In (d + j) keys) ->
               k <= calculateLongestStreak shift h).
Proof.
  intros Hne. cbv zeta.
  rewrite (calculateLongestStreak_sortedDays shift h Hne).
  set (keys := map (fun d => d + shift d) (map date h)).
  pose proof (sortedDays_strict keys) as Hstrict.
  pose proof (sortedDays_in keys) as Hin.
  destruct (sortDefault (fromSet keys)) as [|first rest].
  - exfalso. destruct h as [|r h]; [contradiction|].
    apply (Hin (date r + shift (date r))). now left.
  - assert (Hbest : forall d k, (forall j, 0 <= j < k -> d + j = first) -> k <= 1).
    { intros d k Hk. destruct (Z.le_gt_cases k 1) as [|Hgt]; [assumption|].
      pose proof (Hk 0 ltac:(lia)). pose proof (Hk 1 ltac:(lia)). lia. }
    assert (Hex : exists d, forall j, 0 <= j < 1 -> d + j = first).
    { exists first. intros j Hj. lia. }
    assert (Hmax : forall x, x = first -> x <= first) by (intros; lia).
    assert (Hc : 1 <= 1 <= 1) by lia.
    assert (Hrun : forall j, 0 <= j < 1 -> first - j = first) by (intros; lia).
    assert (Hend : first - 1 <> first) by lia.
    destruct (longestLoop_invariant rest first 1 1 (fun x => x = first)
                Hstrict eq_refl Hmax Hc Hrun Hend Hex Hbest)
      as (H1 & [d Hd] & Hub).
    split; [exact H1|]. split.
    + exists d. intros j Hj. apply Hin.
      destruct (Hd j Hj) as [Heq|Hr]; [left; now symmetry | now right].
    + intros d1 k Hk. apply (Hub d1). intros j Hj.
      destruct (proj2 (Hin (d1 + j)) (Hk j Hj)) as [Heq|Hr];
        [left; now symmetry | now right].
Qed.

(** The runtime enters through the shift it gives the days of the
    history. *)
Lemma calculateLongestStreak_agree (shift1 shift2 : Z -> Z)
    (h : WorkoutHistory) :
  (forall d, hasDay h d -> shift1 d = shift2 d) ->
  calculateLongestStreak shift1 h = calculateLongestStreak shift2 h.
Proof.
  intros Hsame. destruct h as [|r h]; [reflexivity|].
  rewrite !calculateLongestStreak_sortedDays by discriminate.
  replace (map (fun d => d + shift1 d) (map date (r :: h)))
    with (map (fun d => d + shift2 d) (map date (r :: h))); [reflexivity|].
  apply map_ext_in. intros d Hd. now rewrite (Hsame d Hd).
Qed.

(** With one shift for all its days, the day strings of a history are its
    days moved by that shift. *)
Lemma oneOffset_constant (shift : Z -> Z) (r : WorkoutRow) (h : WorkoutHistory) :
  TimeZones.oneOffset shift (r :: h) ->
  calculateLongestStreak shift (r :: h)
  = calculateLongestStreak (fun _ => shift (date r)) (r :: h).
Proof.
  intros Hone. apply calculateLongestStreak_agree.
  intros d Hd. apply Hone; [exact Hd|now left].
Qed.

(** What [calculateLongestStreak] returns on a history that is not empty
    when the runtime gives all its days one shift: the length of a run of
    the history that no run of it exceeds. *)
Lemma calculateLongestStreak_longest (shift : Z -> Z) (h : WorkoutHistory) :
  TimeZones.oneOffset shift h ->
  h <> [] ->
  1 <= calculateLongestStreak shift h /\
  (exists d, isRun h d (calculateLongestStreak shift h)) /\
  (forall d k, isRun h d k -> k <= calculateLongestStreak shift h).
Proof.
  intros Hone Hne. destruct h as [|r h]; [contradiction|].
  rewrite (oneOffset_constant shift r h Hone).
  set (c := shift (date r)).
  destruct (calculateLongestStreak_keys (fun _ => c) (r :: h) Hne)
    as (H1 & [d Hd] & Hub).
  assert (Hkey : forall x,
             In x (map (fun d => d + c) (map date (r :: h)))
             <-> hasDay (r :: h) (x - c)).
  { intros x. unfold hasDay. rewrite in_map_iff. split.
    - intros (y & <- & Hy). now replace (y + c - c) with y by lia.
    - intros Hy. exists (x - c). split; [lia|exact Hy]. }
  split; [exact H1|]. split.
  - exists (d - c). intros j Hj.
    replace (d - c + j) with (d + j - c) by lia. apply Hkey, Hd, Hj.
  - intros d1 k Hk. apply (Hub (d1 + c)). intros j Hj. apply Hkey.
    replace (d1 + c + j - c) with (d1 + j) by lia. now apply Hk.
Qed.

(** The order of the history, and the number of completions on a day, are
    lost when the days are put in a set and sorted. *)
Lemma calculateLongestStreak_reorder (shift : Z -> Z) (h h' : WorkoutHistory) :
  (forall d, hasDay h d <-> hasDay h' d) ->
  calculateLongestStreak shift h = calculateLongestStreak shift h'.
Proof.
  intros Hsame.
  destruct h as [|r h]; destruct h' as [|r' h'].
  - reflexivity.
  - exfalso. apply (proj2 (Hsame (date r'))). now left.
  - exfalso. apply (proj1 (Hsame (date r))). now left.
  - rewrite !calculateLongestStreak_sortedDays by discriminate.
    replace (sortDefault
               (fromSet (map (fun d => d + shift d) (map date (r :: h)))))
      with (sortDefault
              (fromSet (map (fun d => d + shift d) (map date (r' :: h')))));
      [reflexivity|].
    apply sort_perm_eq; try (intros; lia).
    apply NoDup_Permutation; try apply fromSet_NoDup.
    intros x. rewrite !fromSet_in, !in_map_iff.
    split; intros (d & <- & Hd); exists d; (split; [reflexivity|]);
      now apply Hsame.
Qed.

Lemma filter_shift (shift x : Z) (l : list Z) :
  filter (fun y => negb (y =? x + shift)) (map (fun d => d + shift) l)
  = map (fun d => d + shift) (filter (fun y => negb (y =? x)) l).
Proof.
  induction l as [|y l IH]; simpl; [reflexivity|].
  rewrite IH.
  destruct (Z.eqb_spec (y + shift) (x + shift)), (Z.eqb_spec y x);
    simpl; try reflexivity; lia.
Qed.

Lemma fromSet_shift (shift : Z) (l : list Z) :
  fromSet (map (fun d => d + shift) l) = map (fun d => d + shift) (fromSet l).
Proof.
  induction l as [|x l IH]; simpl; [reflexivity|].
  now rewrite IH, filter_shift.
Qed.

Lemma sortDefault_shift (shift : Z) (l : list Z) :
  sortDefault (map (fun d => d + shift) l)
  = map (fun d => d + shift) (sortDefault l).
Proof.
  unfold sortDefault. symmetry. apply map_sort. intros x y. lia.
Qed.

Lemma longestLoop_shift (shift : Z) (rest : list Z) :
  forall p c L,
    longestLoop (p + shift) (map (fun d => d + shift) rest) c L
    = longestLoop p rest c L.
Proof.
  induction rest as [|q rest IH]; intros p c L; [reflexivity|].
  cbn [map]. rewrite !longestLoop_cons. cbv zeta.
  replace (q + shift - (p + shift)) with (q - p) by lia.
  apply IH.
Qed.

(** Two runtimes that each keep one offset give the same result, whatever
    the two offsets are. *)
Lemma calculateLongestStreak_shift (shift1 shift2 : Z) (h : WorkoutHistory) :
  calculateLongestStreak (fun _ => shift1) h
  = calculateLongestStreak (fun _ => shift2) h.
Proof.
  destruct h as [|r h]; [reflexivity|].
  assert (Hs : forall shift,
             calculateLongestStreak (fun _ => shift) (r :: h)
             = match sortDefault (fromSet (map date (r :: h))) with
               | [] => 1
               | first :: rest => longestLoop first rest 1 1
               end).
  { intros shift. rewrite calculateLongestStreak_sortedDays by discriminate.
    rewrite fromSet_shift, sortDefault_shift.
    destruct (sortDefault (fromSet (map date (r :: h)))) as [|first rest];
      [reflexivity|].
    cbn [map]. apply longestLoop_shift. }
  now rewrite !Hs.
Qed.

End LongestFacts.

(** ** The validator of the schedule screen *)

Module ScheduleFacts.
Import JsArray Schedule ScheduleSpec JsArrayFacts.

(** The test [some] makes on an array, from its second element on. *)
Lemma someFrom_neighbours (suf : list Z) :
  forall (pre : list Z) (x : Z),
    someFrom (consecutiveAt (pre ++ x :: suf)) (S (List.length pre)) suf
    = neighboursFrom x suf.
Proof.
  induction suf as [|y suf IH]; intros pre x; [reflexivity|].
  cbn [someFrom neighboursFrom]. f_equal.
  - unfold consecutiveAt. cbn [Nat.eqb].
    replace (S (List.length pre) - 1)%nat with (List.length pre) by lia.
    now rewrite nth_middle.
  - specialize (IH (pre ++ [x]) y).
    rewrite <- app_assoc, length_app in IH. cbn [List.length app] in IH.
    replace (List.length pre + 1)%nat with (S (List.length pre)) in IH by lia.
    exact IH.
Qed.

Lemma some_neighbours (x : Z) (l : list Z) :
  some (consecutiveAt (x :: l)) (x :: l) = neighboursFrom x l.
Proof.
  unfold some. cbn [someFrom]. unfold consecutiveAt at 1. cbn [Nat.eqb orb].
  apply (someFrom_neighbours l [] x).
Qed.

(** In an ascending array two elements at distance one exist exactly when
    two neighbours are at distance one. *)
Lemma neighboursFrom_sound (l : list Z) :
  forall x, neighboursFrom x l = true ->
            exists a b, In a (x :: l) /\ In b (x :: l) /\ Z.abs (a - b) = 1.
Proof.
  induction l as [|y l IH]; intros x H; [discriminate|].
  cbn [neighboursFrom] in H. apply orb_true_iff in H as [H|H].
  - apply Z.eqb_eq in H. exists y, x. split; [right; now left|].
    split; [now left|exact H].
  - destruct (IH y H) as (a & b & Ha & Hb & Hab).
    exists a, b. split; [now right|]. split; [now right|exact Hab].
Qed.

Lemma neighboursFrom_complete (l : list Z) :
  forall x, StronglySorted (before (fun a b => a - b)) (x :: l) ->
            forall a b, In a (x :: l) -> In b (x :: l) -> b = a + 1 ->
                        neighboursFrom x l = true.
Proof.
  induction l as [|y l IH]; intros x Hs a b Ha Hb Hab.
  - destruct Ha as [<-|[]], Hb as [<-|[]]. lia.
  - cbn [neighboursFrom]. apply orb_true_iff.
    inversion Hs as [|? ? Hs' Hall]; subst.
    assert (Hxy : x <= y).
    { inversion Hall as [|? ? Hxy _]; subst. unfold before in Hxy. lia. }
    assert (Hyl : forall z, In z (y :: l) -> y <= z).
    { intros z [<-|Hz]; [lia|].
      inversion Hs' as [|? ? _ Hally]; subst.
      rewrite Forall_forall in Hally. specialize (Hally z Hz).
      unfold before in Hally. lia. }
    destruct (Z.eqb_spec (Z.abs (y - x)) 1) as [|Hne]; [now left|right].
    destruct Ha as [<-|Ha], Hb as [Hb|Hb].
    + lia.
    + assert (y = x) as -> by (specialize (Hyl _ Hb); lia).
      apply (IH x Hs' x (x + 1)); [now left|exact Hb|reflexivity].
    + specialize (Hyl _ Ha). lia.
    + now apply (IH y Hs' a (a + 1)).
Qed.

(** The test the validator makes, read on the selection. *)
Lemma hasConsecutiveDays_spec (newSelection : list string) :
  let dayIndices :=
    sort (fun a b => a - b)
      (map (fun d => findIndex (fun day => String.eqb (id day) d) days)
         newSelection) in
  some (consecutiveAt dayIndices) dayIndices = true
  <-> hasAdjacentDays newSelection.
Proof.
  cbv zeta.
  change (map (fun d => findIndex (fun day => String.eqb (id day) d) days)
            newSelection) with (map dayIndex newSelection).
  pose proof (sort_sorted (fun a b => a - b) oldest_total oldest_trans
                (map dayIndex newSelection)) as Hs.
  pose proof (sort_in (fun a b => a - b) (map dayIndex newSelection)) as Hin.
  destruct (sort (fun a b => a - b) (map dayIndex newSelection)) as [|x l].
  - split; [discriminate|].
    intros (d1 & d2 & H1 & _). exfalso.
    apply (Hin (dayIndex d1)). now apply in_map.
  - rewrite some_neighbours. split.
    + intros H. destruct (neighboursFrom_sound l x H) as (a & b & Ha & Hb & Hab).
      apply Hin, in_map_iff in Ha. apply Hin, in_map_iff in Hb.
      destruct Ha as (d1 & <- & H1), Hb as (d2 & <- & H2).
      now exists d1, d2.
    + intros (d1 & d2 & H1 & H2 & Hd).
      assert (Ha : In (dayIndex d1) (x :: l)) by (now apply Hin, in_map).
      assert (Hb : In (dayIndex d2) (x :: l)) by (now apply Hin, in_map).
      destruct (Z.le_gt_cases (dayIndex d1) (dayIndex d2)).
      * apply (neighboursFrom_complete l x Hs (dayIndex d1) (dayIndex d2));
          try assumption; lia.
      * apply (neighboursFrom_complete l x Hs (dayIndex d2) (dayIndex d1));
          try assumption; lia.
Qed.

(** C2, as the code has it.  Removing a day is valid.  Adding a day is
    refused with the message [Maximum of 4 workout days allowed] exactly
    when the new selection has more than four days; it is refused with the
    message [Rest day required between workouts] exactly when the new
    selection has at most four days, two of them at index distance one; and
    it is valid exactly when the new selection has at most four days and no
    two at index distance one.  Adding Wednesday to Monday and Friday is
    valid. *)
Theorem validateDayToggle_spec (selectedDays : list string) (dayId : string) :
  let newSelection := selectedDays ++ [dayId] in
  validateDayToggle selectedDays dayId false = valid /\
  (validateDayToggle selectedDays dayId true = tooManyDays
   <-> (4 < List.length newSelection)%nat) /\
  (validateDayToggle selectedDays dayId true = restDayRequired
   <-> (List.length newSelection <= 4)%nat /\ hasAdjacentDays newSelection) /\
  (validateDayToggle selectedDays dayId true = valid
   <-> (List.length newSelection <= 4)%nat /\ ~ hasAdjacentDays newSelection) /\
  validateDayToggle ["monday"; "friday"]%string "wednesday" true = valid.
Proof.
  cbv zeta. split; [reflexivity|].
  pose proof (hasConsecutiveDays_spec (selectedDays ++ [dayId])) as Hadj.
  cbv zeta in Hadj.
  unfold validateDayToggle. cbn [negb].
  destruct (Nat.ltb_spec 4 (List.length (selectedDays ++ [dayId]))) as [Hgt|Hle].
  - repeat split; settle_case.
  - destruct (some _ _) eqn:Hsome.
    + assert (Hyes : hasAdjacentDays (selectedDays ++ [dayId])) by now apply Hadj.
      repeat split; settle_case.
    + assert (Hno : ~ hasAdjacentDays (selectedDays ++ [dayId])).
      { intros Hyes. apply Hadj in Hyes. congruence. }
      repeat split; settle_case.
Qed.

Lemma validateDayToggle_spec_witness :
  validateDayToggle ["monday"; "wednesday"; "friday"; "sunday"]%string
    "tuesday" true = tooManyDays.
Proof.
  apply (proj2 (proj1 (proj2 (validateDayToggle_spec
           ["monday"; "wednesday"; "friday"; "sunday"]%string "tuesday")))).
  simpl. lia.
Defined.

(** The messages of the validator are not the reasons C2 quotes. *)
Lemma validateDayToggle_reasons_differ :
  validateDayToggle ["monday"; "wednesday"; "friday"; "sunday"]%string
    "tuesday" true
  <> mkValidation false (Some "maximum workout days exceeded"%string) /\
  validateDayToggle ["monday"]%string "tuesday" true
  <> mkValidation false (Some "rest day required between workouts"%string).
Proof. split; vm_compute; discriminate. Qed.

End ScheduleFacts.

(** ** The toggle of the onboarding screen, and the week's two ends *)

Module OnboardingFacts.
Import JsArray Onboarding OnboardingSpec.

(** C7, as the code has it.  Neither check closes the week into a cycle,
    but the two screens order the week differently.  The schedule screen
    starts the week on Monday: Sunday and Monday are six apart and may be
    added to each other, Saturday and Sunday are neighbours and may not.  The
    onboarding screen starts the week on Sunday: Saturday and Sunday are six
    apart and its toggle accepts either after the other. *)
Theorem adjacency_not_circular :
  (ScheduleSpec.dayIndex "sunday" - ScheduleSpec.dayIndex "monday" = 6 /\
   Schedule.validateDayToggle ["sunday"]%string "monday" true
   = ScheduleSpec.valid /\
   Schedule.validateDayToggle ["monday"]%string "sunday" true
   = ScheduleSpec.valid) /\
  (ScheduleSpec.dayIndex "sunday" - ScheduleSpec.dayIndex "saturday" = 1 /\
   Schedule.validateDayToggle ["saturday"]%string "sunday" true
   = ScheduleSpec.restDayRequired /\
   Schedule.validateDayToggle ["sunday"]%string "saturday" true
   = ScheduleSpec.restDayRequired) /\
  (dayIndex "saturday" - dayIndex "sunday" = 6 /\
   toggleDay "sunday" ["saturday"]%string = ["saturday"; "sunday"]%string /\
   toggleDay "saturday" ["sunday"]%string = ["sunday"; "saturday"]%string).
Proof. repeat split; reflexivity. Qed.

(** On the schedule screen Sunday cannot be added to Saturday. *)
Lemma sunday_after_saturday_refused :
  Schedule.isValid
    (Schedule.validateDayToggle ["saturday"]%string "sunday" true) = false /\
  Schedule.isValid
    (Schedule.validateDayToggle ["sunday"]%string "saturday" true) = false.
Proof. split; reflexivity. Qed.

(** C9.  The toggle compares each index with the one before it in the
    order of selection, the indices not being sorted first.  From the initial
    selection a tap on Tuesday is accepted, next to Monday and to Wednesday;
    tapping Sunday, Tuesday, Thursday and Saturday selects all seven days. *)
Theorem toggleDay_admits_adjacent_days :
  toggleDay "tuesday" initialSelectedDays
  = ["monday"; "wednesday"; "friday"; "tuesday"]%string /\
  reachable ["monday"; "wednesday"; "friday"; "tuesday"]%string /\
  hasAdjacentDays ["monday"; "wednesday"; "friday"; "tuesday"]%string /\
  reachable ["monday"; "wednesday"; "friday"; "sunday"; "tuesday"; "thursday";
             "saturday"]%string.
Proof.
  split; [reflexivity|]. split; [|split].
  - change (reachable (toggleDay "tuesday" initialSelectedDays)).
    apply reachable_toggle; [simpl; tauto|constructor].
  - exists "monday"%string, "tuesday"%string.
    split; [simpl; tauto|]. split; [simpl; tauto|reflexivity].
  - change (reachable
              (toggleDay "saturday"
                 (toggleDay "thursday"
                    (toggleDay "tuesday"
                       (toggleDay "sunday" initialSelectedDays))))).
    repeat (apply reachable_toggle; [simpl; tauto|]). constructor.
Qed.

End OnboardingFacts.

(** ** The two streak functions together *)

Module StreakClaims.
Import JsArray DateFns StreakUtils StreakSpec.
Import JsArrayFacts DateFnsFacts StreakFacts LongestFacts.

(** C3. Where the zone of the runtime changes sides of UTC between the
    dates of a history, [calculateLongestStreak] does not return the longest
    run of calendar days.  In Europe/London the three consecutive days
    2024-10-26, 2024-10-27 and 2024-10-28 get the day strings of the 25th,
    the 26th and the 28th, and the result is [2]; the two consecutive days
    2024-03-31 and 2024-04-01 both get the day string of the 31st, and the
    result is [1]. *)
Theorem calculateLongestStreak_clock_change :
  isRun (map completionOn [20022; 20023; 20024]) 20022 3 /\
  calculateLongestStreak TimeZones.europeLondon2024
    (map completionOn [20022; 20023; 20024]) = 2 /\
  isRun (map completionOn [19813; 19814]) 19813 2 /\
  calculateLongestStreak TimeZones.europeLondon2024
    (map completionOn [19813; 19814]) = 1.
Proof.
  split; [|split; [reflexivity|split; [|reflexivity]]].
  - intros j Hj. unfold hasDay. cbn [map date completionOn In]. lia.
  - intros j Hj. unfold hasDay. cbn [map date completionOn In]. lia.
Qed.

(** C10. Both functions read the days of the history and nothing else of
    it: two histories with the same days, each as often, give the same
    results; in particular a history and a reordering of it do. *)
Theorem streaks_depend_on_days (now : Instant) (shift : Z -> Z)
    (h h' : WorkoutHistory) :
  (Permutation (map date h) (map date h') ->
   calculateStreak now h = calculateStreak now h' /\
   calculateLongestStreak shift h = calculateLongestStreak shift h') /\
  (Permutation h h' ->
   calculateStreak now h = calculateStreak now h' /\
   calculateLongestStreak shift h = calculateLongestStreak shift h').
Proof.
  assert (Hdays : Permutation (map date h) (map date h') ->
                  calculateStreak now h = calculateStreak now h' /\
                  calculateLongestStreak shift h
                  = calculateLongestStreak shift h').
  { intros Hp. split.
    - now apply calculateStreak_reorder.
    - apply calculateLongestStreak_reorder. intros d. unfold hasDay.
      split; apply Permutation_in; [exact Hp|now apply Permutation_sym]. }
  split; [exact Hdays|].
  intros Hp. apply Hdays. now apply Permutation_map.
Qed.

Lemma streaks_depend_on_days_witness :
  calculateStreak (mkInstant 20 0)
    [completionOn 19; completionOn 20; completionOn 17]
  = calculateStreak (mkInstant 20 0)
      [completionOn 20; completionOn 19; completionOn 17] /\
  calculateLongestStreak TimeZones.utc
    [completionOn 19; completionOn 20; completionOn 17]
  = calculateLongestStreak TimeZones.utc
      [completionOn 20; completionOn 19; completionOn 17].
Proof.
  apply (proj2 (streaks_depend_on_days (mkInstant 20 0) TimeZones.utc
                  [completionOn 19; completionOn 20; completionOn 17]
                  [completionOn 20; completionOn 19; completionOn 17])).
  apply perm_swap.
Defined.





End StreakClaims.

(** ** The request handler *)

Module UpdateStatsFacts.
Import StreakUtils StreakSpec UpdateStats UpdateStatsSpec.

(** The answers of the handler other than with status 200. *)
Lemma tryBlock_status (rt : Runtime) (db : Backend) (req : Request)
    (response : Response) :
  tryBlock rt db req = inr response ->
  status response = 200 ->
  exists workoutHistory,
    body response
    = Some (JObj
        [ ("success", JBool true);
          ("stats",
           JObj (statsFields
                   (Z.of_nat (List.length workoutHistory))
                   (calculateStreak (now rt) workoutHistory)
                   (calculateLongestStreak (utcDayShift rt) workoutHistory)
                   (calculateAverageWorkoutDuration workoutHistory))) ]%string).
Proof.
  unfold tryBlock, bind.
  destruct (createClient rt _ _) as [e|supabaseClient]; [discriminate|].
  destruct (json req) as [e|parsed]; [discriminate|].
  destruct (destructureUserId parsed) as [e|user_id]; [discriminate|].
  destruct (negb (truthy user_id)).
  { intros [= <-]. discriminate. }
  destruct (error (selectHistory db user_id)); [discriminate|].
  destruct (error (selectStats db user_id)) as [statsError|].
  - destruct (differsFrom (code statsError) "PGRST116"); [discriminate|].
    destruct (data (selectStats db user_id));
      match goal with
      | |- context [error ?r] => destruct (error r); [discriminate|]
      end;
      intros [= <-] _; eexists; reflexivity.
  - destruct (data (selectStats db user_id));
      match goal with
      | |- context [error ?r] => destruct (error r); [discriminate|]
      end;
      intros [= <-] _; eexists; reflexivity.
Qed.

(** C4, as the code has it.  The handler reads one property of the request
    body, [user_id].  A request other than [OPTIONS] that it answers with
    status 200 gets a body with the two fields [success], which is [true],
    and [stats]; [stats] is an object whose fields are [total_workouts],
    [current_streak], [longest_streak] and [average_workout_duration],
    computed from the history the database returned. *)
Theorem serve_success_body (rt : Runtime) (db : Backend) (req : Request) :
  (forall m fields fields',
     getField "user_id" fields = getField "user_id" fields' ->
     serve rt db (mkRequest m (inr (JObj fields)))
     = serve rt db (mkRequest m (inr (JObj fields')))) /\
  (method req <> "OPTIONS"%string ->
   status (serve rt db req) = 200 ->
   topLevelFields (serve rt db req) = ["success"; "stats"]%string /\
   exists workoutHistory,
     body (serve rt db req)
     = Some (JObj
         [ ("success", JBool true);
           ("stats",
            JObj
              [ ("total_workouts", JNum (Z.of_nat (List.length workoutHistory)));
                ("current_streak",
                 JNum (calculateStreak (now rt) workoutHistory));
                ("longest_streak",
                 JNum (calculateLongestStreak (utcDayShift rt) workoutHistory));
                ("average_workout_duration",
                 JNum (calculateAverageWorkoutDuration workoutHistory)) ])
         ]%string)).
Proof.
  split.
  - intros m fields fields' Hsame. unfold serve, tryBlock, bind.
    cbn [method json destructureUserId ret]. now rewrite Hsame.
  - intros Hmethod. unfold serve.
    apply String.eqb_neq in Hmethod. rewrite Hmethod.
    destruct (tryBlock rt db req) as [e|response] eqn:Htry;
      [discriminate|].
    intros H200.
    destruct (tryBlock_status rt db req response Htry H200) as [h Hbody].
    split; [|now exists h].
    unfold topLevelFields. now rewrite Hbody.
Qed.

Lemma serve_success_body_witness :
  topLevelFields (serve sampleRuntime sampleBackend sampleRequest)
  = ["success"; "stats"]%string.
Proof.
  apply (proj2 (serve_success_body sampleRuntime sampleBackend sampleRequest)).
  - discriminate.
  - reflexivity.
Defined.

(** A request answered with status 200 whose body does not have the four
    statistics as its fields. *)
Lemma serve_success_not_flat :
  status (serve sampleRuntime sampleBackend sampleRequest) = 200 /\
  topLevelFields (serve sampleRuntime sampleBackend sampleRequest)
  <> [ "total_workouts"; "current_streak"; "longest_streak";
       "average_workout_duration" ]%string.
Proof. split; [reflexivity|vm_compute; discriminate]. Qed.

End UpdateStatsFacts.

(** ** More on the current streak *)

Module StreakMore.
Import JsArray DateFns StreakUtils StreakSpec StreakRuns.
Import JsArrayFacts DateFnsFacts StreakFacts LongestFacts.

Lemma streakLoop_later (today : Instant) (entries : WorkoutHistory) :
  forall (i : nat) (streak : Z) (currentDate : Instant),
    streakLoop today (S i) entries streak currentDate
    = streak + runFrom (day currentDate) (map date entries).
Proof.
  induction entries as [|entry entries IH]; intros i streak currentDate.
  - simpl. lia.
  - rewrite streakLoop_cons. cbn [Nat.eqb andb map runFrom].
    destruct (date entry =? day currentDate); [|lia].
    rewrite IH. cbn [subDays day]. lia.
Qed.

Lemma streakLoop_first (now : Instant) (entries : WorkoutHistory) :
  streakLoop (startOfDay now) 0 entries 0 (startOfDay now)
  = runFrom (day now) (map date entries).
Proof.
  destruct entries as [|entry entries]; [reflexivity|].
  rewrite streakLoop_cons. cbn [Nat.eqb andb map runFrom startOfDay day].
  destruct (date entry =? day now); [|reflexivity].
  rewrite streakLoop_later. cbn [subDays startOfDay day]. lia.
Qed.

(** [calculateStreak] counts how far the sorted days follow today,
    yesterday, the day before, and so on. *)
Lemma calculateStreak_runFrom (now : Instant) (h : WorkoutHistory) :
  calculateStreak now h
  = runFrom (day now) (sort newestFirst (map date h)).
Proof.
  rewrite <- sortedHistory_days.
  destruct (sort byDate h) as [|first rest] eqn:Es.
  - destruct h; [reflexivity|now apply sort_cons_inv in Es].
  - rewrite (calculateStreak_sorted now h first rest Es).
    rewrite streakLoop_first.
    destruct (Z.gtb_spec (day now - date first) 1) as [Hgap|]; [|reflexivity].
    cbn [map runFrom].
    destruct (Z.eqb_spec (date first) (day now)); [lia|reflexivity].
Qed.

Lemma runFrom_nonneg (l : list Z) : forall d, 0 <= runFrom d l.
Proof.
  induction l as [|x l IH]; intros d; cbn [runFrom]; [lia|].
  destruct (x =? d); [|lia]. specialize (IH (d - 1)). lia.
Qed.

Lemma runFrom_days (l : list Z) :
  forall d j, 0 <= j < runFrom d l -> In (d - j) l.
Proof.
  induction l as [|x l IH]; intros d j Hj; cbn [runFrom] in Hj; [lia|].
  destruct (Z.eqb_spec x d) as [->|]; [|lia].
  destruct (Z.eq_dec j 0) as [->|Hj0].
  - left. lia.
  - right. replace (d - j) with (d - 1 - (j - 1)) by lia. apply IH. lia.
Qed.

Lemma runFrom_descending (l : list Z) :
  forall d k,
    StronglySorted (fun x y => y < x) l ->
    (forall x, In x l -> x <= d) ->
    0 <= k ->
    (forall j, 0 <= j < k -> In (d - j) l) ->
    ~ In (d - k) l ->
    runFrom d l = k.
Proof.
  induction l as [|x l IH]; intros d k Hs Hmax Hk Hrun Hend.
  - cbn [runFrom]. destruct (Z.eq_dec k 0) as [|Hk0]; [lia|].
    destruct (Hrun 0 ltac:(lia)).
  - inversion Hs as [|? ? Hs' Hall]; subst.
    rewrite Forall_forall in Hall.
    cbn [runFrom]. destruct (Z.eqb_spec x d) as [->|Hne].
    + assert (Hk1 : 1 <= k).
      { destruct (Z.le_gt_cases 1 k) as [|Hlt]; [assumption|].
        exfalso. apply Hend. replace k with 0 by lia. left. lia. }
      rewrite (IH (d - 1) (k - 1)); try assumption; try lia.
      * intros y Hy. specialize (Hall y Hy). lia.
      * intros j Hj. destruct (Hrun (j + 1) ltac:(lia)) as [Heq|Hin]; [lia|].
        now replace (d - 1 - j) with (d - (j + 1)) by lia.
      * intros Hin. apply Hend. right.
        now replace (d - k) with (d - 1 - (k - 1)) by lia.
    + destruct (Z.eq_dec k 0) as [->|Hk0]; [reflexivity|exfalso].
      assert (Hx : x <= d) by (apply Hmax; now left).
      destruct (Hrun 0 ltac:(lia)) as [Heq|Hin]; [lia|].
      specialize (Hall _ Hin). lia.
Qed.

Lemma newest_first_sorted (l : list Z) :
  StronglySorted (fun x y => y <= x) (sort newestFirst l).
Proof.
  pose proof (sort_sorted newestFirst newestFirst_total newestFirst_trans l)
    as Hs.
  induction Hs as [|x m Hs IH Hx]; constructor; [assumption|].
  eapply Forall_impl; [|exact Hx].
  intros y Hy. unfold before, newestFirst, getTime in Hy. lia.
Qed.

Lemma descending_strict (l : list Z) :
  StronglySorted (fun x y => y <= x) l -> NoDup l ->
  StronglySorted (fun x y => y < x) l.
Proof.
  induction 1 as [|x l Hs IH Hx]; intros Hnd; constructor.
  - apply IH. now inversion Hnd.
  - inversion Hnd as [|? ? Hnin _]; subst.
    rewrite Forall_forall in *. intros y Hy. specialize (Hx y Hy).
    assert (x <> y) by (intros ->; contradiction). lia.
Qed.

(** X1. With at most one completion per day and none dated after today,
    [calculateStreak] is the length of the run of days that ends today: [k]
    when today and the [k - 1] days before it have a completion and the day
    before those has none, [0] when today has none. *)
Theorem calculateStreak_run_ending_today (now : Instant) (h : WorkoutHistory)
    (k : Z) :
  NoDup (map date h) ->
  (forall d, hasDay h d -> d <= day now) ->
  0 <= k ->
  (forall j, 0 <= j < k -> hasDay h (day now - j)) ->
  ~ hasDay h (day now - k) ->
  calculateStreak now h = k.
Proof.
  intros Hnd Hmax Hk Hrun Hend. rewrite calculateStreak_runFrom.
  pose proof (sort_in newestFirst (map date h)) as Hin.
  apply runFrom_descending; try assumption.
  - apply descending_strict; [apply newest_first_sorted|].
    eapply Permutation_NoDup; [|exact Hnd].
    apply Permutation_sym, sort_perm.
  - intros x Hx. apply Hmax, Hin, Hx.
  - intros j Hj. apply Hin, Hrun, Hj.
  - intros Hx. apply Hend, Hin, Hx.
Qed.

Lemma calculateStreak_run_ending_today_witness :
  calculateStreak (mkInstant 30 500)
    [completionOn 28; completionOn 30; completionOn 25; completionOn 29] = 3.
Proof.
  apply calculateStreak_run_ending_today; unfold hasDay;
    cbn [map date completionOn In day].
  - repeat constructor; cbn [In]; intuition lia.
  - intros d Hd. lia.
  - lia.
  - intros j Hj. lia.
  - lia.
Defined.

(** X2. Whatever the history, the days [calculateStreak] counts are there:
    the result [k] is never negative, and today and the [k - 1] days before
    it all have a completion. *)
Theorem calculateStreak_counts_a_run (now : Instant) (h : WorkoutHistory) :
  0 <= calculateStreak now h /\
  isRun h (day now - calculateStreak now h + 1) (calculateStreak now h).
Proof.
  rewrite calculateStreak_runFrom. split; [apply runFrom_nonneg|].
  intros j Hj. unfold hasDay.
  apply (sort_in newestFirst (map date h)).
  set (k := runFrom (day now) (sort newestFirst (map date h))) in *.
  replace (day now - k + 1 + j) with (day now - (k - 1 - j)) by lia.
  apply runFrom_days. fold k. lia.
Qed.

(** X4. The streak is positive exactly when the most recent completion is
    dated today; a history whose newest entry is yesterday's, or lies in the
    future, has streak [0]. *)
Theorem calculateStreak_positive_iff (now : Instant) (h : WorkoutHistory) :
  0 < calculateStreak now h <-> mostRecent h (day now).
Proof.
  rewrite calculateStreak_runFrom.
  pose proof (sort_in newestFirst (map date h)) as Hin.
  pose proof (newest_first_sorted (map date h)) as Hs.
  destruct (sort newestFirst (map date h)) as [|x l]; cbn [runFrom].
  - split; [lia|]. intros [Hd _]. now apply Hin in Hd.
  - inversion Hs as [|? ? _ Hall]; subst. rewrite Forall_forall in Hall.
    destruct (Z.eqb_spec x (day now)) as [->|Hne].
    + pose proof (runFrom_nonneg l (day now - 1)). split; [intros _|lia].
      split; [apply Hin; now left|].
      intros d Hd. apply Hin in Hd as [<-|Hd]; [lia|now apply Hall].
    + split; [lia|]. intros [Hd Hmax]. exfalso.
      apply Hin in Hd as [Heq|Hd]; [congruence|].
      specialize (Hall _ Hd).
      assert (x <= day now) by (apply Hmax, Hin; now left). lia.
Qed.

Lemma calculateStreak_positive_iff_witness :
  0 < calculateStreak (mkInstant 30 0) [completionOn 29; completionOn 30].
Proof.
  apply (proj2 (calculateStreak_positive_iff (mkInstant 30 0)
                  [completionOn 29; completionOn 30])).
  unfold mostRecent, hasDay. cbn [map date completionOn In day].
  split; [tauto|]. intros d Hd. lia.
Defined.

End StreakMore.

(** ** The two streaks compared *)

Module StreakBounds.
Import JsArray DateFns StreakUtils StreakSpec StreakRuns StatsService.
Import JsArrayFacts DateFnsFacts StreakFacts LongestFacts StreakMore.

Lemma daysFrom_NoDup (d : Z) (k : nat) : NoDup (daysFrom d k).
Proof.
  unfold daysFrom. generalize 0%nat as s.
  induction k as [|k IH]; intros s; cbn [seq map]; constructor.
  - rewrite in_map_iff. intros (j & Heq & Hj). apply in_seq in Hj. lia.
  - apply IH.
Qed.

Lemma daysFrom_in (d : Z) (k : nat) (x : Z) :
  In x (daysFrom d k) -> d <= x < d + Z.of_nat k.
Proof.
  unfold daysFrom. rewrite in_map_iff. intros (j & <- & Hj).
  apply in_seq in Hj. lia.
Qed.

(** A run of [k] days takes [k] places in an array. *)
Lemma run_length (l : list Z) (d k : Z) :
  (forall j, 0 <= j < k -> In (d + j) l) -> k <= Z.of_nat (List.length l).
Proof.
  intros Hrun. destruct (Z.le_gt_cases k 0) as [|Hpos]; [lia|].
  assert (Hle : (List.length (daysFrom d (Z.to_nat k)) <= List.length l)%nat).
  { apply NoDup_incl_length; [apply daysFrom_NoDup|].
    intros x Hx. apply daysFrom_in in Hx.
    replace x with (d + (x - d)) by lia. apply Hrun. lia. }
  unfold daysFrom in Hle. rewrite length_map, length_seq in Hle. lia.
Qed.

Lemma isRun_length (h : WorkoutHistory) (d k : Z) :
  isRun h d k -> k <= Z.of_nat (List.length h).
Proof.
  intros Hrun. rewrite <- (length_map date h). now apply (run_length _ d).
Qed.

Lemma calculateLongestStreak_nonneg (shift : Z -> Z) (h : WorkoutHistory) :
  0 <= calculateLongestStreak shift h.
Proof.
  destruct h as [|r h]; [cbn; lia|].
  destruct (calculateLongestStreak_keys shift (r :: h)) as (H1 & _);
    [discriminate|lia].
Qed.

Lemma calculateLongestStreak_le_length (shift : Z -> Z) (h : WorkoutHistory) :
  calculateLongestStreak shift h <= Z.of_nat (List.length h).
Proof.
  destruct h as [|r h]; [cbn; lia|].
  destruct (calculateLongestStreak_keys shift (r :: h))
    as (_ & [d Hd] & _); [discriminate|].
  apply run_length in Hd. now rewrite !length_map in Hd.
Qed.

Lemma calculateStreak_isRun (now : Instant) (h : WorkoutHistory) :
  isRun h (day now - calculateStreak now h + 1) (calculateStreak now h).
Proof.
  rewrite calculateStreak_runFrom. intros j Hj. unfold hasDay.
  apply (sort_in newestFirst (map date h)).
  set (k := runFrom (day now) (sort newestFirst (map date h))) in *.
  replace (day now - k + 1 + j) with (day now - (k - 1 - j)) by lia.
  apply runFrom_days. fold k. lia.
Qed.

Lemma calculateStreak_bounds (now : Instant) (h : WorkoutHistory) :
  0 <= calculateStreak now h <= Z.of_nat (List.length h).
Proof.
  split.
  - rewrite calculateStreak_runFrom. apply runFrom_nonneg.
  - exact (isRun_length _ _ _ (calculateStreak_isRun now h)).
Qed.

(** In a runtime that gives the days of the history one shift, the current
    streak is a run of the history, so the longest one is no shorter. *)
Lemma streaks_ordered (now : Instant) (shift : Z -> Z) (h : WorkoutHistory) :
  TimeZones.oneOffset shift h ->
  calculateStreak now h <= calculateLongestStreak shift h.
Proof.
  intros Hone. destruct h as [|r h]; [cbn; lia|].
  destruct (calculateLongestStreak_longest shift (r :: h) Hone)
    as (_ & _ & Hub); [discriminate|].
  exact (Hub _ _ (calculateStreak_isRun now (r :: h))).
Qed.

(** X3. For every history, clock and runtime, the current streak and the
    longest streak each lie between [0] and the number of entries of the
    history; and the current streak is at most the longest streak when the
    runtime gives all the days of the history the same UTC day shift. *)
Theorem streak_bounds (now : Instant) (shift : Z -> Z) (h : WorkoutHistory) :
  0 <= calculateStreak now h <= Z.of_nat (List.length h) /\
  0 <= calculateLongestStreak shift h <= Z.of_nat (List.length h) /\
  (TimeZones.oneOffset shift h ->
   calculateStreak now h <= calculateLongestStreak shift h).
Proof.
  split; [apply calculateStreak_bounds|]. split.
  - split; [apply calculateLongestStreak_nonneg
           |apply calculateLongestStreak_le_length].
  - apply streaks_ordered.
Qed.

Lemma streak_bounds_witness :
  calculateStreak (mkInstant 20024 0)
    (map completionOn [20024; 20023; 20021])
  <= calculateLongestStreak TimeZones.utc
       (map completionOn [20024; 20023; 20021]).
Proof.
  apply (proj2 (proj2 (streak_bounds (mkInstant 20024 0) TimeZones.utc
                         (map completionOn [20024; 20023; 20021])))).
  intros d d' _ _. reflexivity.
Defined.

(** X5. Two completions dated today end the count at the second of them:
    when no entry is dated after today and two entries are dated today,
    [calculateStreak] is [1], whatever the earlier days. *)
Theorem calculateStreak_twice_today (now : Instant)
    (h h' : WorkoutHistory) (r1 r2 : WorkoutRow) :
  (forall d, hasDay h d -> d <= day now) ->
  Permutation h (r1 :: r2 :: h') ->
  date r1 = day now -> date r2 = day now ->
  calculateStreak now h = 1.
Proof.
  intros Hmax Hp H1 H2. rewrite calculateStreak_runFrom.
  assert (Hperm : Permutation (sort newestFirst (map date h))
                    (day now :: day now :: map date h')).
  { eapply perm_trans; [apply sort_perm|].
    rewrite <- H1 at 1. rewrite <- H2.
    exact (Permutation_map date Hp). }
  pose proof (sort_in newestFirst (map date h)) as Hin.
  pose proof (newest_first_sorted (map date h)) as Hs.
  assert (Hhead : forall x l m,
             StronglySorted (fun a b => b <= a) (x :: l) ->
             (forall y, In y (x :: l) -> y <= day now) ->
             Permutation (x :: l) (day now :: m) -> x = day now).
  { intros x l m Hsx Hle Hpx.
    assert (Ht : In (day now) (x :: l)).
    { apply (Permutation_in _ (Permutation_sym Hpx)). now left. }
    assert (x <= day now) by (apply Hle; now left).
    destruct Ht as [|Ht]; [assumption|].
    inversion Hsx as [|? ? _ Hall]; subst. rewrite Forall_forall in Hall.
    specialize (Hall _ Ht). lia. }
  destruct (sort newestFirst (map date h)) as [|x l].
  - apply Permutation_nil in Hperm. discriminate.
  - assert (Hle : forall y, In y (x :: l) -> y <= day now).
    { intros y Hy. apply Hmax, Hin, Hy. }
    assert (x = day now) as -> by (eapply Hhead; eassumption).
    apply Permutation_cons_inv in Hperm.
    destruct l as [|y l].
    + apply Permutation_nil in Hperm. discriminate.
    + assert (y = day now) as ->.
      { apply (Hhead y l (map date h')); [now inversion Hs| |exact Hperm].
        intros z Hz. apply Hle. now right. }
      cbn [runFrom]. rewrite Z.eqb_refl.
      destruct (Z.eqb_spec (day now) (day now - 1)); lia.
Qed.

Lemma calculateStreak_twice_today_witness :
  calculateStreak (mkInstant 30 0)
    [completionOn 29; completionOn 30; completionOn 28; completionOn 30] = 1.
Proof.
  apply (calculateStreak_twice_today (mkInstant 30 0)
           [completionOn 29; completionOn 30; completionOn 28; completionOn 30]
           [completionOn 29; completionOn 28]
           (completionOn 30) (completionOn 30)).
  - unfold hasDay. cbn [map date completionOn In day]. intros d Hd. lia.
  - eapply perm_trans; [apply perm_swap|]. apply perm_skip.
    eapply perm_trans; [|apply perm_swap].
    apply perm_skip. apply perm_swap.
  - reflexivity.
  - reflexivity.
Defined.

(** X6. In one runtime, a history with more days has a longest streak at
    least as long: logging a completion never lowers
    [calculateLongestStreak]. *)
Theorem calculateLongestStreak_monotone (shift : Z -> Z)
    (h h' : WorkoutHistory) :
  (forall d, hasDay h d -> hasDay h' d) ->
  calculateLongestStreak shift h <= calculateLongestStreak shift h'.
Proof.
  intros Hsub. destruct h as [|r h].
  - cbn. apply calculateLongestStreak_nonneg.
  - assert (Hne : h' <> []).
    { intros ->. apply (Hsub (date r)). now left. }
    destruct (calculateLongestStreak_keys shift (r :: h))
      as (_ & [d Hd] & _); [discriminate|].
    destruct (calculateLongestStreak_keys shift h' Hne) as (_ & _ & Hub).
    apply (Hub d). intros j Hj.
    specialize (Hd j Hj). rewrite in_map_iff in *.
    destruct Hd as (y & Hy & Hin). exists y. split; [exact Hy|].
    now apply Hsub.
Qed.

Lemma calculateLongestStreak_monotone_witness :
  calculateLongestStreak TimeZones.europeLondon2024
    [completionOn 20023; completionOn 20024]
  <= calculateLongestStreak TimeZones.europeLondon2024
       [completionOn 20022; completionOn 20023; completionOn 20024].
Proof.
  apply calculateLongestStreak_monotone.
  unfold hasDay. cbn [map date completionOn In]. intros d Hd. lia.
Defined.

(** X7. The statistics the client derives from a history: [totalWorkouts]
    is the number of its entries, [currentStreak] and [longestStreak] are
    both what [calculateStreak] returns, and [averageWorkoutDuration] is
    [30].  So [longestStreak] lies between [0] and [totalWorkouts], and is
    [0] as soon as the most recent completion is not today's. *)
Theorem calculateStatsFromHistory_streaks (now : Instant)
    (h : WorkoutHistory) :
  let stats := calculateStatsFromHistory now h in
  totalWorkouts stats = Z.of_nat (List.length h) /\
  currentStreak stats = calculateStreak now h /\
  longestStreak stats = calculateStreak now h /\
  averageWorkoutDuration stats = 30 /\
  0 <= longestStreak stats <= totalWorkouts stats /\
  (~ mostRecent h (day now) -> longestStreak stats = 0).
Proof.
  cbv zeta. unfold calculateStatsFromHistory.
  cbn [totalWorkouts currentStreak longestStreak averageWorkoutDuration].
  pose proof (calculateStreak_bounds now h) as [H0 H1].
  repeat split; try lia.
  intros Hno.
  destruct (Z.eq_dec (calculateStreak now h) 0) as [|Hne]; [assumption|].
  exfalso. apply Hno.
  rewrite calculateStreak_runFrom in *.
  pose proof (sort_in newestFirst (map date h)) as Hin.
  pose proof (newest_first_sorted (map date h)) as Hs.
  destruct (sort newestFirst (map date h)) as [|x l]; [now cbn in Hne|].
  cbn [runFrom] in Hne. destruct (Z.eqb_spec x (day now)) as [->|]; [|lia].
  inversion Hs as [|? ? _ Hall]; subst. rewrite Forall_forall in Hall.
  split; [apply Hin; now left|].
  intros d Hd. apply Hin in Hd as [<-|Hd]; [lia|now apply Hall].
Qed.

Lemma calculateStatsFromHistory_streaks_witness :
  longestStreak
    (calculateStatsFromHistory (mkInstant 30 0)
       [completionOn 29; completionOn 28; completionOn 27]) = 0.
Proof.
  apply (proj2 (proj2 (proj2 (proj2 (proj2
           (calculateStatsFromHistory_streaks (mkInstant 30 0)
              [completionOn 29; completionOn 28; completionOn 27])))))).
  intros [Hd _]. unfold hasDay in Hd.
  cbn [map date completionOn In day] in Hd. lia.
Defined.

End StreakBounds.

(** ** More on the request handler *)

Module UpdateStatsMore.
Import StreakUtils StreakSpec StreakRuns UpdateStats UpdateStatsShapes.
Import StreakBounds.

(** The ways the [try] block ends. *)
Lemma tryBlock_cases (rt : Runtime) (db : Backend) (req : Request) :
  (exists e, clientCreated rt = inl e /\ tryBlock rt db req = inl e) \/
  (exists client, clientCreated rt = inr client /\
  ((exists e, json req = inl e /\ tryBlock rt db req = inl e) \/
  (exists parsed e, json req = inr parsed /\
     destructureUserId parsed = inl e /\ tryBlock rt db req = inl e) \/
  (exists parsed user_id, json req = inr parsed /\
     destructureUserId parsed = inr user_id /\
     ((truthy user_id = false /\
       tryBlock rt db req
       = inr (mkResponse (Some (errorBody "User ID is required")) 400
                jsonHeaders)) \/
      (truthy user_id = true /\
       ((exists e, error (selectHistory db user_id) = Some e /\
                   tryBlock rt db req = inl e) \/
        (error (selectHistory db user_id) = None /\
         ((exists e, lookupFailure db user_id = Some e /\
                     tryBlock rt db req = inl e) \/
          (lookupFailure db user_id = None /\
           ((exists e, error (writeReply rt db user_id) = Some e /\
                       tryBlock rt db req = inl e) \/
            (error (writeReply rt db user_id) = None /\
             tryBlock rt db req
             = inr (mkResponse
                      (Some (successBody rt (historyOf db user_id))) 200
                      jsonHeaders)))))))))))).
Proof.
  unfold tryBlock, bind, clientCreated.
  destruct (createClient rt _ _) as [e|client] eqn:Hc;
    [left; now exists e|right].
  exists client. split; [reflexivity|].
  destruct (json req) as [e|parsed] eqn:Hj; [left; now exists e|right].
  destruct (destructureUserId parsed) as [e|user_id] eqn:Hd;
    [left; now exists parsed, e|right].
  exists parsed, user_id. split; [reflexivity|]. split; [exact Hd|].
  destruct (truthy user_id) eqn:Ht; cbn [negb]; [right|left; now split].
  split; [reflexivity|].
  destruct (error (selectHistory db user_id)) as [e|] eqn:Hh;
    [left; now exists e|right].
  split; [reflexivity|].
  unfold lookupFailure, writeReply, historyOf, successBody.
  destruct (error (selectStats db user_id)) as [e|].
  - destruct (differsFrom (code e) "PGRST116");
      [left; now exists e|right].
    split; [reflexivity|].
    destruct (data (selectStats db user_id));
      match goal with
      | |- context [error ?r] => destruct (error r) as [e'|]
      end;
      solve [left; now exists e' | right; now split].
  - right. split; [reflexivity|].
    destruct (data (selectStats db user_id));
      match goal with
      | |- context [error ?r] => destruct (error r) as [e'|]
      end;
      solve [left; now exists e' | right; now split].
Qed.

(** The answers of the handler. *)
Lemma serve_cases (rt : Runtime) (db : Backend) (req : Request) :
  serve rt db req = mkResponse None 200 corsHeaders \/
  (exists e, serve rt db req
             = mkResponse (Some (stringifyError (message e))) 500
                 jsonHeaders) \/
  serve rt db req
  = mkResponse (Some (errorBody "User ID is required")) 400 jsonHeaders \/
  (exists workoutHistory,
     serve rt db req
     = mkResponse (Some (successBody rt workoutHistory)) 200 jsonHeaders).
Proof.
  unfold serve. destruct (String.eqb (method req) "OPTIONS"); [now left|right].
  destruct (tryBlock_cases rt db req)
    as [(e & _ & ->)
       |(client & _ &
         [(e & _ & ->)
         |[(parsed & e & _ & _ & ->)
          |(parsed & u & _ & _ &
            [(_ & ->)
            |(_ & [(e & _ & ->)
                  |(_ & [(e & _ & ->)
                        |(_ & [(e & _ & ->)|(_ & ->)])])])])]])].
  - left. now exists e.
  - left. now exists e.
  - left. now exists e.
  - right. now left.
  - left. now exists e.
  - left. now exists e.
  - left. now exists e.
  - right. right. now exists (historyOf db u).
Qed.

(** X8. Whatever the request, the runtime and the database, the handler
    answers with status 200, 400 or 500 and with the three CORS headers; an
    answer with a body is declared as JSON; and the body of an answer other
    than 200 is an object that has the field [error] and no other, or no
    field at all when what was thrown has no [message]. *)
Theorem serve_answers (rt : Runtime) (db : Backend) (req : Request) :
  let response := serve rt db req in
  (status response = 200 \/ status response = 400 \/ status response = 500) /\
  incl corsHeaders (headers response) /\
  (body response <> None ->
   In ("Content-Type", "application/json")%string (headers response)) /\
  (status response <> 200 ->
   body response = Some (JObj []) \/
   exists value, body response = Some (JObj [("error", value)]%string)).
Proof.
  cbv zeta.
  destruct (serve_cases rt db req) as [->|[(e & ->)|[->|(h & ->)]]];
    cbn [status headers body];
    (split; [tauto|]);
    (split; [intros x Hx; first [exact Hx | now right]|]);
    (split; [first [intros H; now contradiction H | intros _; now left]|]);
    first [ intros H; now contradiction H
          | intros _; destruct (message e); cbn [stringifyError];
            [right; eexists; reflexivity | now left]
          | intros _; right; eexists; reflexivity ].
Qed.

Lemma serve_answers_witness :
  body (serve UpdateStatsSpec.sampleRuntime UpdateStatsSpec.sampleBackend
          (mkRequest "POST" (inr (JObj []))))
  = Some (JObj []) \/
  exists value,
    body (serve UpdateStatsSpec.sampleRuntime UpdateStatsSpec.sampleBackend
            (mkRequest "POST" (inr (JObj []))))
    = Some (JObj [("error", value)]%string).
Proof.
  apply (proj2 (proj2 (proj2
           (serve_answers UpdateStatsSpec.sampleRuntime
              UpdateStatsSpec.sampleBackend
              (mkRequest "POST" (inr (JObj []))))))).
  cbn. discriminate.
Defined.

(** X9. Once the client is created, a body that is an object without a
    truthy [user_id] (the property missing, or [null], [false], [0] or the
    empty string) is answered with status 400 and the error [User ID is
    required], the same for every database: no query decides the answer.
    When creating the client throws, the answer is 500 instead. *)
Theorem serve_user_id_required (rt : Runtime) (db : Backend) (m : string)
    (fields : list (string * Json)) :
  m <> "OPTIONS"%string ->
  truthy (getField "user_id" fields) = false ->
  (forall client, clientCreated rt = inr client ->
   serve rt db (mkRequest m (inr (JObj fields)))
   = mkResponse (Some (JObj [("error", JStr "User ID is required")]%string))
       400 jsonHeaders) /\
  (forall e, clientCreated rt = inl e ->
   serve rt db (mkRequest m (inr (JObj fields)))
   = mkResponse (Some (stringifyError (message e))) 500 jsonHeaders).
Proof.
  intros Hm Hu. unfold serve, tryBlock, bind, clientCreated.
  apply String.eqb_neq in Hm. cbn [method json destructureUserId ret].
  rewrite Hm. split.
  - intros client ->. now rewrite Hu.
  - intros e ->. reflexivity.
Qed.

Lemma serve_user_id_required_witness :
  serve UpdateStatsSpec.sampleRuntime UpdateStatsSpec.sampleBackend
    (mkRequest "POST" (inr (JObj [("user", JStr "u-1"); ("user_id", JStr "")]%string)))
  = mkResponse (Some (JObj [("error", JStr "User ID is required")]%string))
      400 jsonHeaders.
Proof.
  apply (proj1 (serve_user_id_required UpdateStatsSpec.sampleRuntime
                  UpdateStatsSpec.sampleBackend "POST"
                  [("user", JStr "u-1"); ("user_id", JStr "")]%string
                  ltac:(discriminate) eq_refl) tt).
  reflexivity.
Defined.



End UpdateStatsMore.

(** ** The numbers the handler reports *)

Module UpdateStatsValues.
Import StreakUtils StreakSpec StreakRuns UpdateStats UpdateStatsShapes.
Import StreakBounds UpdateStatsMore.

Lemma sum_between (lo hi : Z) (counts : list Z) :
  forall start,
    (forall c, In c counts -> lo <= c <= hi) ->
    start + lo * Z.of_nat (List.length counts)
    <= fold_left (fun sum count => sum + count) counts start
    <= start + hi * Z.of_nat (List.length counts).
Proof.
  induction counts as [|c counts IH]; intros start Hc.
  - cbn. lia.
  - cbn [fold_left List.length]. rewrite Nat2Z.inj_succ.
    specialize (IH (start + c) (fun x Hx => Hc x (or_intror Hx))).
    pose proof (Hc c (or_introl eq_refl)). nia.
Qed.

Lemma average_between (lo hi : Z) (h : WorkoutHistory) :
  h <> [] ->
  (forall w, In w h -> lo <= exerciseCount w <= hi) ->
  5 * lo <= calculateAverageWorkoutDuration h <= 5 * hi.
Proof.
  intros Hne Hw. unfold calculateAverageWorkoutDuration.
  destruct h as [|r h]; [contradiction|].
  change (Nat.eqb (List.length (r :: h)) 0) with false. cbv iota.
  set (n := Z.of_nat (List.length (r :: h))).
  assert (Hn : 0 < n) by (unfold n; cbn [List.length]; lia).
  change (map _ (r :: h)) with (map exerciseCount (r :: h)).
  pose proof (sum_between lo hi (map exerciseCount (r :: h)) 0) as Hsum.
  rewrite length_map in Hsum. fold n in Hsum.
  assert (Hc : forall c, In c (map exerciseCount (r :: h)) -> lo <= c <= hi).
  { intros c Hin. apply in_map_iff in Hin as (w & <- & Hin). now apply Hw. }
  specialize (Hsum Hc).
  set (total := fold_left (fun sum count => sum + count)
                  (map exerciseCount (r :: h)) 0) in *.
  unfold roundQuotient. split.
  - apply Z.div_le_lower_bound; nia.
  - enough (H : (2 * (total * 5) + n) / (2 * n) < 5 * hi + 1) by lia.
    apply Z.div_lt_upper_bound; nia.
Qed.

Lemma exerciseCount_nonneg (w : WorkoutRow) : 0 <= exerciseCount w.
Proof. unfold exerciseCount. destruct (exercises w); lia. Qed.

Lemma average_nonneg (h : WorkoutHistory) :
  0 <= calculateAverageWorkoutDuration h.
Proof.
  destruct h as [|r h]; [cbn; lia|].
  assert (Hmax : exists hi, forall w, In w (r :: h) -> 0 <= exerciseCount w <= hi).
  { generalize (r :: h) as l. induction l as [|w l [hi IH]].
    - exists 0. intros w [].
    - exists (Z.max hi (exerciseCount w)). intros w' [<-|Hin].
      + pose proof (exerciseCount_nonneg w). lia.
      + specialize (IH w' Hin). lia. }
  destruct Hmax as [hi Hhi].
  pose proof (average_between 0 hi (r :: h) ltac:(discriminate) Hhi). lia.
Qed.

(** X12. The average duration is [0] for the empty history; otherwise,
    when every workout of the history has between [lo] and [hi] exercises
    (a value that is no array counting as none), it lies between [5 * lo]
    and [5 * hi]: five minutes an exercise, and exactly [5 * n] when every
    workout has [n] exercises. *)
Theorem calculateAverageWorkoutDuration_bounds (lo hi : Z)
    (h : WorkoutHistory) :
  calculateAverageWorkoutDuration [] = 0 /\
  (h <> [] ->
   (forall w, In w h -> lo <= exerciseCount w <= hi) ->
   5 * lo <= calculateAverageWorkoutDuration h <= 5 * hi).
Proof. split; [reflexivity|apply average_between]. Qed.

Lemma calculateAverageWorkoutDuration_bounds_witness :
  5 * 2 <= calculateAverageWorkoutDuration
             [ mkRow "" "" 3 (JArr [JNull; JNull]) "";
               mkRow "" "" 4 (JArr [JNull; JNull]) "" ] <= 5 * 2.
Proof.
  apply (proj2 (calculateAverageWorkoutDuration_bounds 2 2
                  [ mkRow "" "" 3 (JArr [JNull; JNull]) "";
                    mkRow "" "" 4 (JArr [JNull; JNull]) "" ])).
  - discriminate.
  - intros w [<-|[<-|[]]]; unfold exerciseCount;
      cbn [exercises List.length]; lia.
Defined.

(** X11. The statistics of an answer [{ success, stats }]: the current
    streak and the longest streak each lie between [0] and the number of
    workouts, and the average duration is not negative.  In a runtime
    whose UTC day shift is the same on every date, as on UTC, the current
    streak is at most the longest streak. *)
Theorem serve_stats_ordered (rt : Runtime) (db : Backend) (req : Request)
    (total current longest average : Z) :
  body (serve rt db req)
  = Some (JObj [ ("success", JBool true);
                 ("stats", JObj (statsFields total current longest average))
               ]%string) ->
  0 <= current <= total /\
  0 <= longest <= total /\
  0 <= average /\
  ((forall d d', utcDayShift rt d = utcDayShift rt d') -> current <= longest).
Proof.
  destruct (serve_cases rt db req) as [->|[(e & ->)|[->|(h & ->)]]];
    cbn [body]; try discriminate.
  - destruct (message e); cbn [stringifyError]; discriminate.
  - unfold successBody, statsFields. intros [= <- <- <- <-].
    pose proof (calculateStreak_bounds (now rt) h).
    pose proof (calculateLongestStreak_nonneg (utcDayShift rt) h).
    pose proof (calculateLongestStreak_le_length (utcDayShift rt) h).
    pose proof (average_nonneg h).
    repeat split; try lia.
    intros Hsame. apply streaks_ordered. intros d d' _ _. apply Hsame.
Qed.

Lemma serve_stats_ordered_witness :
  body (serve UpdateStatsSpec.sampleRuntime UpdateStatsSpec.sampleBackend
          UpdateStatsSpec.sampleRequest)
  = Some (JObj [ ("success", JBool true);
                 ("stats", JObj (statsFields 2 2 2 0)) ]%string) /\
  2 <= 2.
Proof.
  split; [reflexivity|].
  apply (proj2 (proj2 (proj2
           (serve_stats_ordered UpdateStatsSpec.sampleRuntime
              UpdateStatsSpec.sampleBackend UpdateStatsSpec.sampleRequest
              2 2 2 0 eq_refl)))).
  intros d d'. reflexivity.
Defined.

End UpdateStatsValues.

(** ** The taps on the schedule screen *)

Module ScheduleScreenFacts.
Import JsArray Schedule ScheduleSpec ScheduleScreen JsArrayFacts ScheduleFacts.

Lemma includes_In (l : list string) (x : string) :
  includes l x = true <-> In x l.
Proof.
  unfold includes. rewrite existsb_exists. split.
  - intros (y & Hy & Heq). apply String.eqb_eq in Heq. now subst.
  - intros Hx. exists x. split; [assumption|apply String.eqb_refl].
Qed.

Lemma without_In (l : list string) (d x : string) :
  In x (filter (fun y => negb (String.eqb y d)) l) <-> In x l /\ x <> d.
Proof.
  rewrite filter_In, negb_true_iff, String.eqb_neq. tauto.
Qed.

Lemma without_absent (l : list string) (d : string) :
  ~ In d l -> filter (fun y => negb (String.eqb y d)) l = l.
Proof.
  induction l as [|x l IH]; intros Hd; [reflexivity|].
  cbn [filter]. destruct (String.eqb_spec x d) as [->|Hne].
  - exfalso. apply Hd. now left.
  - cbn [negb]. f_equal. apply IH. intros Hin. apply Hd. now right.
Qed.

Lemma without_appended (l : list string) (d : string) :
  ~ In d l -> filter (fun y => negb (String.eqb y d)) (l ++ [d]) = l.
Proof.
  intros Hd. rewrite filter_app, (without_absent l d Hd).
  cbn [filter]. rewrite String.eqb_refl. cbn [negb]. apply app_nil_r.
Qed.

(** What the validator has checked when it lets an addition through. *)
Lemma accepted_addition (selectedDays : list string) (dayId : string) :
  isValid (validateDayToggle selectedDays dayId true) = true ->
  (List.length (selectedDays ++ [dayId]) <= 4)%nat /\
  ~ hasAdjacentDays (selectedDays ++ [dayId]).
Proof.
  pose proof (hasConsecutiveDays_spec (selectedDays ++ [dayId])) as Hadj.
  cbv zeta in Hadj. unfold validateDayToggle. cbn [negb].
  destruct (Nat.ltb_spec 4 (List.length (selectedDays ++ [dayId])));
    [discriminate|].
  destruct (some _ _); [discriminate|].
  intros _. split; [assumption|]. intros Hyes. apply Hadj in Hyes. discriminate.
Qed.

(** The message of a refusal is one of the validator's two. *)
Lemma refused_addition (selectedDays : list string) (dayId : string) :
  isValid (validateDayToggle selectedDays dayId true) = false ->
  message (validateDayToggle selectedDays dayId true)
  = Some "Maximum of 4 workout days allowed"%string \/
  message (validateDayToggle selectedDays dayId true)
  = Some "Rest day required between workouts"%string.
Proof.
  unfold validateDayToggle. cbn [negb].
  destruct (4 <? List.length (selectedDays ++ [dayId]))%nat; [now left|].
  destruct (some _ _); [now right|discriminate].
Qed.

Lemma toggleDay_keeps_wellSpaced (isMounted : bool)
    (selectedDays : list string) (dayId : string) :
  wellSpaced selectedDays ->
  wellSpaced (nextSelectedDays (toggleDay isMounted selectedDays dayId)).
Proof.
  intros (Hnd & Hlen & Hadj). unfold toggleDay.
  destruct isMounted; cbn [negb]; [|now repeat split].
  destruct (includes selectedDays dayId) eqn:Hinc.
  - cbn [nextSelectedDays]. split; [now apply NoDup_filter|]. split.
    + pose proof (filter_length_le
                    (fun d => negb (String.eqb d dayId)) selectedDays). lia.
    + intros (d1 & d2 & H1 & H2 & Hd). apply Hadj.
      apply without_In in H1 as [H1 _]. apply without_In in H2 as [H2 _].
      now exists d1, d2.
  - destruct (isValid (validateDayToggle selectedDays dayId true)) eqn:Hv;
      cbn [negb nextSelectedDays]; [|now repeat split].
    destruct (accepted_addition selectedDays dayId Hv) as [Hlen' Hadj'].
    split; [|now split].
    apply (Permutation_NoDup (Permutation_cons_append selectedDays dayId)).
    constructor; [|assumption].
    intros Hin. apply includes_In in Hin. congruence.
Qed.

(** X13. The schedule screen keeps a selection without repetition, of at
    most four days, no two of them neighbours in the week as the screen
    orders it: if the loaded selection is such, so is every selection that
    taps on days and on the clear button lead to.  The empty selection the
    screen starts from is such. *)
Theorem schedule_selection_wellSpaced (start selection : list string) :
  wellSpaced [] /\
  (wellSpaced start -> reachableFrom start selection -> wellSpaced selection).
Proof.
  split.
  - split; [constructor|]. split; [cbn; lia|]. intros (d1 & _ & [] & _).
  - intros Hstart Hreach. induction Hreach as [|m d sel _ IH|m sel _ IH].
    + assumption.
    + now apply toggleDay_keeps_wellSpaced.
    + unfold clearAllDays. destruct m; cbn [negb]; [|assumption].
      destruct (Nat.eqb (List.length sel) 0); [assumption|].
      split; [constructor|]. split; [cbn; lia|]. intros (d1 & _ & [] & _).
Qed.

Lemma schedule_selection_wellSpaced_witness :
  wellSpaced
    (nextSelectedDays
       (toggleDay true
          (nextSelectedDays (toggleDay true [] "monday")) "thursday")).
Proof.
  apply (proj2 (schedule_selection_wellSpaced []
                  (nextSelectedDays
                     (toggleDay true
                        (nextSelectedDays (toggleDay true [] "monday"))
                        "thursday")))).
  - apply (proj1 (schedule_selection_wellSpaced [] [])).
  - apply reachable_tap. apply reachable_tap. apply reachable_start.
Defined.

(** X14. Tapping twice on a day that is not selected gives the selection
    back: whether the first tap adds the day or is refused, the second
    leaves the array as it was, in the same order. *)
Theorem toggleDay_twice (isMounted : bool) (selectedDays : list string)
    (dayId : string) :
  ~ In dayId selectedDays ->
  nextSelectedDays
    (toggleDay isMounted
       (nextSelectedDays (toggleDay isMounted selectedDays dayId)) dayId)
  = selectedDays.
Proof.
  intros Hd.
  assert (Hinc : includes selectedDays dayId = false).
  { destruct (includes selectedDays dayId) eqn:E; [|reflexivity].
    apply includes_In in E. contradiction. }
  unfold toggleDay at 2. destruct isMounted; cbn [negb]; [|reflexivity].
  rewrite Hinc.
  destruct (isValid (validateDayToggle selectedDays dayId true)) eqn:Hv;
    cbn [negb nextSelectedDays].
  - unfold toggleDay. cbn [negb].
    assert (Hinc' : includes (selectedDays ++ [dayId]) dayId = true).
    { apply includes_In, in_or_app. right. now left. }
    rewrite Hinc'. cbn [nextSelectedDays]. now apply without_appended.
  - unfold toggleDay. cbn [negb]. rewrite Hinc, Hv. reflexivity.
Qed.

Lemma toggleDay_twice_witness :
  nextSelectedDays
    (toggleDay true
       (nextSelectedDays (toggleDay true ["monday"]%string "thursday"))
       "thursday")
  = ["monday"]%string.
Proof.
  apply toggleDay_twice. intros [H|[]]. discriminate.
Defined.

(** X15. A tap on a selected day always removes it: the day is gone from
    the next selection, every other day stays, no error is shown, and the
    next selection is what goes to storage. *)
Theorem toggleDay_removes (selectedDays : list string) (dayId : string) :
  In dayId selectedDays ->
  let outcome := toggleDay true selectedDays dayId in
  ~ In dayId (nextSelectedDays outcome) /\
  (forall d, d <> dayId ->
             (In d (nextSelectedDays outcome) <-> In d selectedDays)) /\
  errorToast outcome = None /\
  written outcome = Some (nextSelectedDays outcome).
Proof.
  intros Hin. cbv zeta. unfold toggleDay. cbn [negb].
  apply includes_In in Hin. rewrite Hin.
  cbn [nextSelectedDays errorToast written].
  split; [|split; [|now split]].
  - rewrite without_In. tauto.
  - intros d Hd. rewrite without_In. tauto.
Qed.

Lemma toggleDay_removes_witness :
  ~ In "monday"%string
      (nextSelectedDays
         (toggleDay true ["monday"; "thursday"]%string "monday")).
Proof.
  apply (toggleDay_removes ["monday"; "thursday"]%string "monday").
  now left.
Defined.

(** X16. A tap that shows an error changes nothing: the selection stays,
    nothing goes to storage, and the text shown is one of the validator's
    two messages, never the fallback [Invalid selection].  A tap that shows
    no error, on a mounted screen, stores the selection it leaves. *)
Theorem toggleDay_outcome (isMounted : bool) (selectedDays : list string)
    (dayId : string) :
  let outcome := toggleDay isMounted selectedDays dayId in
  (forall text, errorToast outcome = Some text ->
     nextSelectedDays outcome = selectedDays /\
     written outcome = None /\
     (text = "Maximum of 4 workout days allowed"%string \/
      text = "Rest day required between workouts"%string)) /\
  (isMounted = true -> errorToast outcome = None ->
   written outcome = Some (nextSelectedDays outcome)).
Proof.
  cbv zeta. unfold toggleDay.
  destruct isMounted; cbn [negb]; [|split; [discriminate|discriminate]].
  destruct (includes selectedDays dayId);
    [split; [discriminate|reflexivity]|].
  destruct (isValid (validateDayToggle selectedDays dayId true)) eqn:Hv;
    cbn [negb nextSelectedDays errorToast written];
    [split; [discriminate|reflexivity]|].
  split; [|discriminate].
  intros text [= <-]. split; [reflexivity|]. split; [reflexivity|].
  unfold toastText.
  destruct (refused_addition selectedDays dayId Hv) as [-> | ->];
    [left|right]; reflexivity.
Qed.

Lemma toggleDay_outcome_witness :
  written (toggleDay true ["monday"]%string "thursday")
  = Some (nextSelectedDays (toggleDay true ["monday"]%string "thursday")).
Proof.
  apply (proj2 (toggleDay_outcome true ["monday"]%string "thursday"));
    reflexivity.
Defined.

End ScheduleScreenFacts.

(** ** What the onboarding toggle does keep *)

Module OnboardingMore.
Import JsArray Onboarding OnboardingSpec OnboardingOrder.
Import JsArrayFacts ScheduleFacts ScheduleScreenFacts.

(** The test of the toggle finds every two neighbours of the week that
    follow each other in the array. *)
Lemma neighboursFrom_finds (pre : list Z) :
  forall x l a b post,
    x :: l = pre ++ a :: b :: post -> Z.abs (b - a) = 1 ->
    ScheduleSpec.neighboursFrom x l = true.
Proof.
  induction pre as [|p pre IH]; intros x l a b post Heq Hab.
  - cbn [app] in Heq. injection Heq as -> ->.
    cbn [ScheduleSpec.neighboursFrom]. apply Z.eqb_eq in Hab. now rewrite Hab.
  - cbn [app] in Heq. injection Heq as -> ->.
    destruct pre as [|q pre].
    + cbn [app ScheduleSpec.neighboursFrom]. apply orb_true_iff. right.
      apply (IH a (b :: post) a b post); [reflexivity|assumption].
    + cbn [app ScheduleSpec.neighboursFrom]. apply orb_true_iff. right.
      apply (IH q (pre ++ a :: b :: post) a b post); [reflexivity|assumption].
Qed.

Lemma test_finds_neighbours (selection : list string) :
  neighboursInOrder selection ->
  some (consecutiveAt (map dayIndex selection)) (map dayIndex selection)
  = true.
Proof.
  intros (pre & a & b & post & -> & Hab).
  rewrite map_app. cbn [map].
  destruct (map dayIndex pre ++ dayIndex a :: dayIndex b :: map dayIndex post)
    as [|x l] eqn:E.
  - destruct (map dayIndex pre); discriminate.
  - change consecutiveAt with Schedule.consecutiveAt.
    rewrite some_neighbours.
    eapply neighboursFrom_finds; [symmetry; exact E|exact Hab].
Qed.

(** The toggle returns the current selection or one that passes its
    test. *)
Lemma toggleDay_passes_test (dayId : string) (current : list string) :
  some (consecutiveAt (map dayIndex current)) (map dayIndex current) = false ->
  some (consecutiveAt (map dayIndex (toggleDay dayId current)))
    (map dayIndex (toggleDay dayId current)) = false.
Proof.
  intros Hcur. unfold toggleDay.
  set (newSelection :=
         if includes current dayId
         then filter (fun d => negb (String.eqb d dayId)) current
         else current ++ [dayId]).
  change (map (fun d => findIndex (fun day => String.eqb (id day) d) days)
            newSelection) with (map dayIndex newSelection).
  destruct (some (consecutiveAt (map dayIndex newSelection))
              (map dayIndex newSelection)) eqn:E; assumption.
Qed.

Lemma reachable_passes_test (selection : list string) :
  reachable selection ->
  some (consecutiveAt (map dayIndex selection)) (map dayIndex selection)
  = false.
Proof.
  induction 1 as [|d current _ _ IH]; [reflexivity|].
  now apply toggleDay_passes_test.
Qed.

Lemma toggleDay_keeps_days (dayId : string) (current : list string) :
  In dayId (map id days) ->
  NoDup current /\ incl current (map id days) ->
  NoDup (toggleDay dayId current) /\ incl (toggleDay dayId current) (map id days).
Proof.
  intros Hd [Hnd Hincl]. unfold toggleDay.
  destruct (some _ _); [now split|].
  destruct (includes current dayId) eqn:Hinc.
  - split; [now apply NoDup_filter|].
    intros x Hx. apply without_In in Hx as [Hx _]. now apply Hincl.
  - split.
    + apply (Permutation_NoDup (Permutation_cons_append current dayId)).
      constructor; [|assumption].
      intros Hin. apply includes_In in Hin. congruence.
    + intros x Hx. apply in_app_or in Hx as [Hx|[<-|[]]];
        [now apply Hincl|assumption].
Qed.

(** X17. Every selection the onboarding screen can reach lists days of the
    week, none twice, hence at most seven; and no two entries that follow
    each other in the order of selection are neighbours in the week.  This
    is all the toggle keeps: days selected at other positions may be
    neighbours. *)
Theorem onboarding_selection_invariant (selection : list string) :
  reachable selection ->
  NoDup selection /\
  incl selection (map id days) /\
  (List.length selection <= 7)%nat /\
  ~ neighboursInOrder selection.
Proof.
  intros Hreach.
  assert (Hdays : NoDup selection /\ incl selection (map id days)).
  { induction Hreach as [|d current Hd _ IH].
    - split.
      + repeat constructor; cbn [In]; intuition discriminate.
      + intros x [<-|[<-|[<-|[]]]]; cbn; tauto.
    - now apply toggleDay_keeps_days. }
  destruct Hdays as [Hnd Hincl].
  split; [assumption|]. split; [assumption|]. split.
  - change 7%nat with (List.length (map id days)).
    now apply NoDup_incl_length.
  - intros Hn. apply test_finds_neighbours in Hn.
    rewrite (reachable_passes_test selection Hreach) in Hn. discriminate.
Qed.

Lemma onboarding_selection_invariant_witness :
  (List.length (toggleDay "sunday" initialSelectedDays) <= 7)%nat.
Proof.
  apply (onboarding_selection_invariant
           (toggleDay "sunday" initialSelectedDays)).
  apply reachable_toggle; [cbn; tauto|constructor].
Defined.

(** X18. On a reachable selection, tapping twice on a day that is not
    selected gives the selection back, whether the first tap was accepted or
    not. *)
Theorem onboarding_toggle_twice (dayId : string) (current : list string) :
  reachable current -> ~ In dayId current ->
  toggleDay dayId (toggleDay dayId current) = current.
Proof.
  intros Hreach Hd.
  pose proof (reachable_passes_test current Hreach) as Hcur.
  assert (Hinc : includes current dayId = false).
  { destruct (includes current dayId) eqn:E; [|reflexivity].
    apply includes_In in E. contradiction. }
  assert (Hrefused :
            forall sel, includes sel dayId = false ->
              some (consecutiveAt (map dayIndex (sel ++ [dayId])))
                (map dayIndex (sel ++ [dayId])) = true ->
              toggleDay dayId sel = sel).
  { intros sel Hi Ht. unfold toggleDay. rewrite Hi.
    change (map (fun d => findIndex (fun day => String.eqb (id day) d) days)
              (sel ++ [dayId])) with (map dayIndex (sel ++ [dayId])).
    now rewrite Ht. }
  destruct (some (consecutiveAt (map dayIndex (current ++ [dayId])))
              (map dayIndex (current ++ [dayId]))) eqn:Htest.
  - rewrite (Hrefused current Hinc Htest). exact (Hrefused current Hinc Htest).
  - assert (Hadd : toggleDay dayId current = current ++ [dayId]).
    { unfold toggleDay. rewrite Hinc.
      change (map (fun d => findIndex (fun day => String.eqb (id day) d) days)
                (current ++ [dayId])) with (map dayIndex (current ++ [dayId])).
      now rewrite Htest. }
    rewrite Hadd. unfold toggleDay.
    assert (Hinc' : includes (current ++ [dayId]) dayId = true).
    { apply includes_In, in_or_app. right. now left. }
    rewrite Hinc', (without_appended current dayId Hd).
    change (map (fun d => findIndex (fun day => String.eqb (id day) d) days)
              current) with (map dayIndex current).
    now rewrite Hcur.
Qed.

Lemma onboarding_toggle_twice_witness :
  toggleDay "sunday" (toggleDay "sunday" initialSelectedDays)
  = initialSelectedDays.
Proof.
  apply onboarding_toggle_twice; [constructor|].
  cbn. intros [H|[H|[H|[]]]]; discriminate.
Defined.

End OnboardingMore.

(** ** The workouts of the schedule screen *)

Module ScheduleWorkoutsFacts.
Import JsArray Schedule ScheduleSpec ScheduleScreen ScheduleWorkouts.
Import JsArrayFacts ScheduleFacts ScheduleScreenFacts.

Lemma getProp_setProp_same (o : CustomWorkouts) (key : string)
    (value : WorkoutPlan) :
  getProp (setProp o key value) key = Some value.
Proof.
  induction o as [|[k v] o IH]; cbn [setProp getProp].
  - now rewrite String.eqb_refl.
  - destruct (String.eqb k key) eqn:E; cbn [getProp]; rewrite E;
      [reflexivity|exact IH].
Qed.

Lemma getProp_setProp_other (o : CustomWorkouts) (key other : string)
    (value : WorkoutPlan) :
  other <> key -> getProp (setProp o key value) other = getProp o other.
Proof.
  intros Hne. induction o as [|[k v] o IH]; cbn [setProp getProp].
  - destruct (String.eqb_spec key other); [congruence|reflexivity].
  - destruct (String.eqb_spec k key) as [->|]; cbn [getProp].
    + destruct (String.eqb_spec key other); [congruence|reflexivity].
    + destruct (String.eqb k other); [reflexivity|exact IH].
Qed.

(** X19. Removing an exercise from the workout of a selected day leaves
    that day a workout without any exercise of the removed id, the other
    exercises in their order, whether the day had a plan of its own or the
    default one; the workout of every other day is as before.  For a day
    that is not selected nothing changes. *)
Theorem handleRemoveExercise_spec (selectedDays : list string)
    (customWorkouts : CustomWorkouts) (dayId removedId : string) :
  let next :=
    handleRemoveExercise true selectedDays customWorkouts dayId removedId in
  (forall workout,
     getWorkoutForDay selectedDays customWorkouts dayId = Some workout ->
     getWorkoutForDay selectedDays next dayId
     = Some (mkPlan
               (filter (fun e => negb (String.eqb (exerciseId e) removedId))
                  (planExercises workout)))) /\
  (forall other, other <> dayId ->
     getWorkoutForDay selectedDays next other
     = getWorkoutForDay selectedDays customWorkouts other) /\
  (getWorkoutForDay selectedDays customWorkouts dayId = None ->
   next = customWorkouts).
Proof.
  cbv zeta. unfold handleRemoveExercise. cbn [negb].
  destruct (getWorkoutForDay selectedDays customWorkouts dayId)
    as [workout|] eqn:Hw.
  - split; [|split; [|discriminate]].
    + intros w [= <-]. unfold getWorkoutForDay in *.
      destruct (includes selectedDays dayId); cbn [negb] in *; [|discriminate].
      now rewrite getProp_setProp_same.
    + intros other Hne. unfold getWorkoutForDay.
      now rewrite getProp_setProp_other.
  - split; [discriminate|]. split; reflexivity.
Qed.

Lemma handleRemoveExercise_spec_witness :
  getWorkoutForDay ["monday"]%string
    (handleRemoveExercise true ["monday"]%string [] "monday" "2") "monday"
  = Some (mkPlan [ mkExercise "1" "Push-ups"; mkExercise "3" "Squats";
                   mkExercise "4" "Dips" ]%string).
Proof.
  apply (proj1 (handleRemoveExercise_spec ["monday"]%string [] "monday" "2")
           (mkPlan defaultExercises)).
  reflexivity.
Defined.

(** The validator lets through what is well spaced. *)
Lemma wellSpaced_accepted (selectedDays : list string) (dayId : string) :
  (List.length (selectedDays ++ [dayId]) <= 4)%nat ->
  ~ hasAdjacentDays (selectedDays ++ [dayId]) ->
  isValid (validateDayToggle selectedDays dayId true) = true.
Proof.
  intros Hlen Hadj.
  pose proof (hasConsecutiveDays_spec (selectedDays ++ [dayId])) as Hspec.
  cbv zeta in Hspec. unfold validateDayToggle. cbn [negb].
  destruct (Nat.ltb_spec 4 (List.length (selectedDays ++ [dayId]))); [lia|].
  destruct (some _ _); [|reflexivity].
  exfalso. apply Hadj, Hspec. reflexivity.
Qed.

(** X20. On a well-spaced selection, tapping a selected day off and on
    again is always accepted: the day comes back, as the last of the
    array, and every day has the workout it had, the plans made for a day
    outliving its removal from the selection. *)
Theorem toggleDay_off_and_on (selectedDays : list string)
    (customWorkouts : CustomWorkouts) (dayId : string) :
  wellSpaced selectedDays -> In dayId selectedDays ->
  let off := nextSelectedDays (toggleDay true selectedDays dayId) in
  let back := nextSelectedDays (toggleDay true off dayId) in
  back = filter (fun d => negb (String.eqb d dayId)) selectedDays ++ [dayId] /\
  Permutation back selectedDays /\
  getWorkoutForDay off customWorkouts dayId = None /\
  (forall d, getWorkoutForDay back customWorkouts d
             = getWorkoutForDay selectedDays customWorkouts d).
Proof.
  intros (Hnd & Hlen & Hadj) Hin. cbv zeta.
  set (rest := filter (fun d => negb (String.eqb d dayId)) selectedDays).
  assert (Hoff : nextSelectedDays (toggleDay true selectedDays dayId) = rest).
  { unfold toggleDay. cbn [negb].
    apply includes_In in Hin. now rewrite Hin. }
  assert (Hnot : ~ In dayId rest).
  { unfold rest. rewrite without_In. tauto. }
  assert (Hsame : forall d, In d (rest ++ [dayId]) <-> In d selectedDays).
  { intros d. rewrite in_app_iff. unfold rest. rewrite without_In.
    cbn [In]. destruct (String.eqb_spec d dayId) as [->|Hne]; [tauto|].
    split; [intros [[H _]|[H|[]]]; [assumption|congruence]|tauto]. }
  assert (Hperm : Permutation (rest ++ [dayId]) selectedDays).
  { apply NoDup_Permutation; [|assumption|exact Hsame].
    apply (Permutation_NoDup (Permutation_cons_append rest dayId)).
    constructor; [assumption|]. now apply NoDup_filter. }
  assert (Hinc : includes rest dayId = false).
  { destruct (includes rest dayId) eqn:E; [|reflexivity].
    apply includes_In in E. contradiction. }
  assert (Hvalid : isValid (validateDayToggle rest dayId true) = true).
  { apply wellSpaced_accepted.
    - rewrite (Permutation_length Hperm). assumption.
    - intros (d1 & d2 & H1 & H2 & Hd). apply Hadj.
      exists d1, d2. split; [now apply Hsame|]. split; [now apply Hsame|].
      exact Hd. }
  assert (Hback : nextSelectedDays (toggleDay true rest dayId)
                  = rest ++ [dayId]).
  { unfold toggleDay. cbn [negb]. now rewrite Hinc, Hvalid. }
  rewrite Hoff, Hback.
  split; [reflexivity|]. split; [exact Hperm|]. split.
  - unfold getWorkoutForDay. now rewrite Hinc.
  - intros d. unfold getWorkoutForDay.
    assert (Heq : includes (rest ++ [dayId]) d = includes selectedDays d).
    { destruct (includes selectedDays d) eqn:E.
      - apply includes_In. apply Hsame. now apply includes_In.
      - destruct (includes (rest ++ [dayId]) d) eqn:E'; [|reflexivity].
        apply includes_In, Hsame, includes_In in E'. congruence. }
    now rewrite Heq.
Qed.

Lemma toggleDay_off_and_on_witness :
  nextSelectedDays
    (toggleDay true
       (nextSelectedDays
          (toggleDay true ["monday"; "thursday"]%string "monday")) "monday")
  = ["thursday"; "monday"]%string.
Proof.
  apply (toggleDay_off_and_on ["monday"; "thursday"]%string [] "monday").
  - split; [repeat constructor; cbn [In]; intuition discriminate|].
    split; [cbn; lia|].
    intros (d1 & d2 & H1 & H2 & Hd).
    destruct H1 as [<-|[<-|[]]], H2 as [<-|[<-|[]]]; vm_compute in Hd;
      discriminate.
  - now left.
Defined.

End ScheduleWorkoutsFacts.

(** ** What the longest streak is the longest run of *)

Module LongestRuns.
Import JsArray DateFns StreakUtils StreakSpec TimeZones.
Import JsArrayFacts DateFnsFacts StreakFacts LongestFacts.

(** X21. [calculateLongestStreak] is [0] on the empty history and [1] on a
    single completion.  On a history that is not empty it is at least [1]
    and, in any runtime, the length of the longest run of consecutive UTC
    days among the day strings of the history.  When the runtime gives all
    the days of the history the same UTC day shift, that is the longest run
    of consecutive calendar days of the history; a history whose days are a
    run of four and a run of six with a gap between them then gives [6]. *)
Theorem calculateLongestStreak_runs (shift : Z -> Z) (h : WorkoutHistory) :
  calculateLongestStreak shift [] = 0 /\
  (forall r, calculateLongestStreak shift [r] = 1) /\
  (h <> [] ->
   let dayStrings := map (fun d => d + shift d) (map date h) in
   1 <= calculateLongestStreak shift h /\
   (exists d, forall j, 0 <= j < calculateLongestStreak shift h ->
                In (d + j) dayStrings) /\
   (forall d k, (forall j, 0 <= j < k -> In (d + j) dayStrings) ->
                k <= calculateLongestStreak shift h)) /\
  (h <> [] -> oneOffset shift h ->
   (exists d, isRun h d (calculateLongestStreak shift h)) /\
   (forall d k, isRun h d k -> k <= calculateLongestStreak shift h)) /\
  (forall a b,
     oneOffset shift h ->
     (forall x, hasDay h x <-> a <= x < a + 4 \/ b <= x < b + 6) ->
     a + 4 < b \/ b + 6 < a ->
     calculateLongestStreak shift h = 6).
Proof.
  split; [reflexivity|]. split; [reflexivity|].
  split; [apply calculateLongestStreak_keys|]. split.
  - intros Hne Hone.
    destruct (calculateLongestStreak_longest shift h Hone Hne) as (_ & H).
    exact H.
  - intros a b Hone Hdays Hgap.
    assert (Hne : h <> []).
    { intros ->. assert (H : hasDay [] a) by (apply Hdays; lia). exact H. }
    destruct (calculateLongestStreak_longest shift h Hone Hne)
      as (_ & [d Hd] & Hub).
    assert (Hsix : 6 <= calculateLongestStreak shift h).
    { apply (Hub b). intros j Hj. apply Hdays. lia. }
    destruct (Z.le_gt_cases (calculateLongestStreak shift h) 6) as [|Hlong];
      [lia|exfalso].
    assert (Hin : forall j, 0 <= j < 7 ->
                    a <= d + j < a + 4 \/ b <= d + j < b + 6).
    { intros j Hj. apply Hdays, Hd. lia. }
    destruct (Hin 0 ltac:(lia)) as [Ha|Hb].
    + pose proof (Hin (a + 4 - d) ltac:(lia)). lia.
    + pose proof (Hin (b + 6 - d) ltac:(lia)). lia.
Qed.

Lemma calculateLongestStreak_runs_witness :
  calculateLongestStreak utc
    (map completionOn [14; 1; 2; 10; 3; 4; 11; 12; 13; 15]) = 6.
Proof.
  apply (proj2 (proj2 (proj2 (proj2
           (calculateLongestStreak_runs utc
              (map completionOn [14; 1; 2; 10; 3; 4; 11; 12; 13; 15])))))
           1 10).
  - intros d d' _ _. reflexivity.
  - intros x. unfold hasDay. cbn [map date completionOn In]. lia.
  - lia.
Defined.

End LongestRuns.
